(** * Verification of [tools/clean_annotation_file_from_labels.py]

    The script removes a set of categories, and every annotation that
    refers to one of them, from a COCO annotation file.  This file embeds
    its two functions, [clean_coco_annotations] and [main], and proves the
    properties the specification states about them.

    Layout: values loaded by [json.load] ([json]); Python's exceptions
    and the error monad [res]; the built-in operations the script applies
    to loaded values; the two filter passes; then, in a section that
    takes the [json] codec and the operating system's answers as
    parameters, the file system, [clean_coco_annotations] and [main]. *)

From Stdlib Require Import ZArith String Ascii SpecFloat.
From stdpp Require Import base option list gmap strings pretty.

Set Warnings "-register-all".
Local Open Scope string_scope.
Local Open Scope Z_scope.

(** ** Loaded JSON values *)

(** What [json.load] returns: [None], [bool], [int], [float], [str],
    [list], and [dict] with [str] keys.  A [dict] keeps its keys in
    insertion order, which [json.dump] writes out again, so it is an
    association list.  A [float] is a binary floating-point datum. *)
Inductive json : Type :=
| JNull
| JBool (b : bool)
| JInt (z : Z)
| JFloat (f : spec_float)
| JStr (s : string)
| JArr (items : list json)
| JObj (fields : list (string * json)).

(** ** Exceptions and the error monad *)

(** The exceptions the script raises by name carry its own message; the
    ones the interpreter raises carry a short description (their exact
    wording differs between interpreter versions). *)
Inductive exn : Type :=
| FileNotFoundError (msg : string)
| ValueError (msg : string)
| IOError (msg : string)
| TypeError (msg : string)
| KeyError (key : string)
| AttributeError (msg : string)
| SystemExit (code : Z).

Global Instance exn_eq_dec : EqDecision exn.
Proof. solve_decision. Defined.

Inductive res (A : Type) : Type :=
| Ok (a : A)
| Err (e : exn).
Arguments Ok {A} a.
Arguments Err {A} e.

Global Instance res_eq_dec {A} `{EqDecision A} : EqDecision (res A).
Proof. solve_decision. Defined.

Global Instance res_ret : MRet res := λ A a, Ok a.
Global Instance res_bind : MBind res := λ A B f m,
  match m with
  | Ok a => f a
  | Err e => Err e
  end.
Global Instance res_fmap : FMap res := λ A B f m,
  match m with
  | Ok a => Ok (f a)
  | Err e => Err e
  end.

(** [str(e)] for an exception [e]. *)
Definition str_exn (e : exn) : string :=
  match e with
  | FileNotFoundError msg | ValueError msg | IOError msg
  | TypeError msg | AttributeError msg => msg
  | KeyError key => "'" +:+ key +:+ "'"
  | SystemExit code => pretty code
  end.

(** ** Dictionaries *)

Module Dict.

(** [d.get(k)]: the value at the (first) entry for [k]. *)
Fixpoint get (k : string) (d : list (string * json)) : option json :=
  match d with
  | [] => None
  | (k', v) :: d' => if decide (k' = k) then Some v else get k d'
  end.

(** [d[k] = v]: an existing key keeps its position and takes the new
    value; a new key is appended. *)
Fixpoint set (k : string) (v : json) (d : list (string * json))
  : list (string * json) :=
  match d with
  | [] => [(k, v)]
  | (k', v') :: d' =>
      if decide (k' = k) then (k', v) :: d' else (k', v') :: set k v d'
  end.

Definition keys (d : list (string * json)) : list string := d.*1.

End Dict.

(** ** Built-in operations on loaded values *)

Definition type_name (v : json) : string :=
  match v with
  | JNull => "NoneType"
  | JBool _ => "bool"
  | JInt _ => "int"
  | JFloat _ => "float"
  | JStr _ => "str"
  | JArr _ => "list"
  | JObj _ => "dict"
  end.

Definition is_str (s : string) (v : json) : bool :=
  match v with
  | JStr s' => bool_decide (s' = s)
  | _ => false
  end.

(** [key in container], for a [str] key: a key of a [dict], an element of
    a [list], a substring of a [str]; a [TypeError] on anything else. *)
Definition py_contains (key : string) (container : json) : res bool :=
  match container with
  | JObj d => Ok (bool_decide (key ∈ Dict.keys d))
  | JArr l => Ok (existsb (is_str key) l)
  | JStr s => Ok (bool_decide (is_Some (String.index 0 key s)))
  | v => Err (TypeError ("argument of type " +:+ type_name v +:+ " is not iterable"))
  end.

(** [v[key]], for a [str] key. *)
Definition getitem (v : json) (key : string) : res json :=
  match v with
  | JObj d =>
      match Dict.get key d with
      | Some x => Ok x
      | None => Err (KeyError key)
      end
  | JArr _ | JStr _ =>
      Err (TypeError (type_name v +:+ " indices must be integers"))
  | _ => Err (TypeError (type_name v +:+ " object is not subscriptable"))
  end.

(** [v[key] = x], for a [str] key. *)
Definition setitem (v : json) (key : string) (x : json) : res json :=
  match v with
  | JObj d => Ok (JObj (Dict.set key x d))
  | JArr _ => Err (TypeError "list indices must be integers")
  | _ => Err (TypeError (type_name v +:+ " object does not support item assignment"))
  end.

(** [len(v)]. *)
Definition py_len (v : json) : res nat :=
  match v with
  | JArr l => Ok (length l)
  | JObj d => Ok (length d)
  | JStr s => Ok (String.length s)
  | _ => Err (TypeError ("object of type " +:+ type_name v +:+ " has no len()"))
  end.

(** [v.copy()]: lists and dictionaries have the method.  Values are
    immutable here, so the copy is the value. *)
Definition py_copy (v : json) : res json :=
  match v with
  | JArr _ | JObj _ => Ok v
  | _ => Err (AttributeError (type_name v +:+ " object has no attribute copy"))
  end.

(** The sequence [for x in v] runs over: the elements of a list, the keys
    of a dictionary, the characters of a string. *)
Definition py_iter (v : json) : res (list json) :=
  match v with
  | JArr l => Ok l
  | JObj d => Ok (JStr <$> Dict.keys d)
  | JStr s => Ok ((λ c, JStr (String c EmptyString)) <$> list_ascii_of_string s)
  | _ => Err (TypeError (type_name v +:+ " object is not iterable"))
  end.

(** The integer a float is equal to, if any: Python compares [float] and
    [int] exactly. *)
Definition float_integer (f : spec_float) : option Z :=
  match f with
  | S754_zero _ => Some 0
  | S754_infinity _ | S754_nan => None
  | S754_finite s m e =>
      let sign := if s then -1 else 1 in
      if decide (0 ≤ e) then Some (sign * (Z.pos m * 2 ^ e))
      else if decide ((Z.pos m) `mod` 2 ^ (- e) = 0)
           then Some (sign * (Z.pos m `div` 2 ^ (- e)))
           else None
  end.

(** [v in S] for a set [S] of integers: the value is hashed, so a list or
    a dictionary raises [TypeError]; [True] and [False] are the integers
    one and zero; a float is a member when it equals a member. *)
Definition in_set (v : json) (S : gset Z) : res bool :=
  match v with
  | JInt z => Ok (bool_decide (z ∈ S))
  | JBool b => Ok (bool_decide ((if b then 1 else 0) ∈ S))
  | JFloat f =>
      Ok (match float_integer f with
          | Some z => bool_decide (z ∈ S)
          | None => false
          end)
  | JNull | JStr _ => Ok false
  | JArr _ | JObj _ => Err (TypeError ("unhashable type: " +:+ type_name v))
  end.

(** ** The two filter passes *)

(** [r[key] in S] and [r[key] not in S], the tests of the comprehensions. *)
Definition field_in (key : string) (S : gset Z) (r : json) : res bool :=
  v ← getitem r key; in_set v S.

Definition field_not_in (key : string) (S : gset Z) (r : json) : res bool :=
  negb <$> field_in key S r.

(** [[x for x in xs if test(x)]]: the test runs on every element in
    order, and the first exception ends the comprehension. *)
Fixpoint comprehension (test : json → res bool) (xs : list json)
  : res (list json) :=
  match xs with
  | [] => Ok []
  | x :: xs' =>
      b ← test x;
      rest ← comprehension test xs';
      Ok (if b : bool then x :: rest else rest)
  end.

(** What lines 39 to 60 leave behind: the document, the two original
    counts and the two lists of removed records. *)
Record filtered : Type := Filtered {
  f_data : json;
  f_original_categories_count : nat;
  f_original_annotations_count : nat;
  f_categories_removed : list json;
  f_annotations_removed : list json;
}.

Definition missing_categories : exn :=
  ValueError "'categories' field not found in annotation file".
Definition missing_annotations : exn :=
  ValueError "'annotations' field not found in annotation file".

(** Lines 39 to 60 of [clean_coco_annotations], statement by statement. *)
Definition filter_document (data : json) (category_ids_to_remove : list Z)
  : res filtered :=
  (* 40-43 *)
  has_categories ← py_contains "categories" data;
  if negb has_categories then Err missing_categories else
  has_annotations ← py_contains "annotations" data;
  if negb has_annotations then Err missing_annotations else
  (* 46 *)
  let ids : gset Z := list_to_set category_ids_to_remove in
  (* 49-50 *)
  categories ← getitem data "categories";
  original_categories_count ← py_len categories;
  annotations ← getitem data "annotations";
  original_annotations_count ← py_len annotations;
  (* 53-55 *)
  categories ← getitem data "categories";
  categories_before ← py_copy categories;
  categories ← getitem data "categories";
  cats ← py_iter categories;
  kept_categories ← comprehension (field_not_in "id" ids) cats;
  data ← setitem data "categories" (JArr kept_categories);
  cats ← py_iter categories_before;
  categories_removed ← comprehension (field_in "id" ids) cats;
  (* 58-60 *)
  annotations ← getitem data "annotations";
  annotations_before ← py_copy annotations;
  annotations ← getitem data "annotations";
  anns ← py_iter annotations;
  kept_annotations ← comprehension (field_not_in "category_id" ids) anns;
  data ← setitem data "annotations" (JArr kept_annotations);
  anns ← py_iter annotations_before;
  annotations_removed ← comprehension (field_in "category_id" ids) anns;
  Ok (Filtered data original_categories_count original_annotations_count
        categories_removed annotations_removed).

(** ** Command-line text *)

(** [s.split(sep)] for a one-character separator: never empty. *)
Fixpoint split_on (sep : ascii) (s : string) : list string :=
  match s with
  | EmptyString => [EmptyString]
  | String c s' =>
      if decide (c = sep) then EmptyString :: split_on sep s'
      else match split_on sep s' with
           | piece :: pieces => String c piece :: pieces
           | [] => [String c EmptyString]
           end
  end.

(** The white space [str.strip] and [int] skip, among the seven-bit
    characters: tab to carriage return, the four separators, space.
    Unicode white space is not recognised. *)
Definition is_space (c : ascii) : bool :=
  let n := nat_of_ascii c in
  ((9 <=? n) && (n <=? 13) || (28 <=? n) && (n <=? 32))%nat.

Fixpoint lstrip (s : list ascii) : list ascii :=
  match s with
  | c :: s' => if is_space c then lstrip s' else s
  | [] => []
  end.

Definition strip (s : string) : string :=
  string_of_list_ascii
    (reverse (lstrip (reverse (lstrip (list_ascii_of_string s))))).

Definition digit_value (c : ascii) : option Z :=
  let n := nat_of_ascii c in
  if ((48 <=? n) && (n <=? 57))%nat then Some (Z.of_nat n - 48) else None.

(** Decimal digits, with single underscores allowed between two digits.
    [after_digit] says whether the previous character was a digit. *)
Fixpoint digits (acc : Z) (after_digit : bool) (s : list ascii) : option Z :=
  match s with
  | [] => if after_digit then Some acc else None
  | c :: s' =>
      match digit_value c with
      | Some d => digits (10 * acc + d) true s'
      | None =>
          if bool_decide (c = "_"%char) && after_digit
          then digits acc false s'
          else None
      end
  end.

(** [int(s)] on seven-bit text: white space around, an optional sign,
    then digits.  [None] stands for the [ValueError].  Outside seven-bit
    text (Unicode digits and white space) and beyond the interpreter's
    limit on the number of digits this is not Python's [int]; statements
    about all arguments say [seven_bit] where they depend on it. *)
Definition py_int (s : string) : option Z :=
  match lstrip (reverse (lstrip (reverse (list_ascii_of_string s)))) with
  | "-"%char :: ds => Z.opp <$> digits 0 false ds
  | "+"%char :: ds => digits 0 false ds
  | ds => digits 0 false ds
  end.

(** Line 132: [[int(id_str.strip()) for id_str in s.split(",")]]. *)
Definition parse_category_ids (s : string) : option (list Z) :=
  mapM (λ id_str, py_int (strip id_str)) (split_on ","%char s).

(** ** The script in its environment *)

(** What the script does to the outside world, in order: a [json.load]
    of a file it opened, and a [json.dump] into a file it opened, with
    the value and the [indent] it passed. *)
Inductive event : Type :=
| JsonLoad (path : string)
| JsonDump (path : string) (data : json) (indent : option nat).

Section script.

(** The content of a file, and the [json] module: [json.load] gives a
    value or the message of its [JSONDecodeError]; [json.dump] writes a
    value with the given [indent]. *)
Variable text : Type.
Variable json_load : text → string + json.
Variable json_dump : json → option nat → text.

(** The operating system's answer to [open(path, 'w')]: [None] when the
    file opens, or the message of the error. *)
Variable write_error : string → option string.

(** [str] of a float, a list or a dictionary. *)
Variable py_repr : json → string.

Record world : Type := World {
  files : gmap string text;
  stdout : list string;
  stderr : list string;
  trace : list event;
}.

(** Files are told apart by the text of their path: two spellings of
    one file are two entries. *)
Definition log (e : event) (w : world) : world :=
  World (files w) (stdout w) (stderr w) (trace w ++ [e]).
Definition write_file (path : string) (t : text) (w : world) : world :=
  World (<[path := t]> (files w)) (stdout w) (stderr w) (trace w).

(** Computations that may raise and that act on the world. *)
Definition M (A : Type) : Type := world → res A * world.

#[local] Instance M_ret : MRet M := λ A a w, (Ok a, w).
#[local] Instance M_bind : MBind M := λ A B f m w,
  match m w with
  | (Ok a, w') => f a w'
  | (Err e, w') => (Err e, w')
  end.

Definition lift {A} (r : res A) : M A := λ w, (r, w).
Definition raise {A} (e : exn) : M A := λ w, (Err e, w).

(** [try: body; except Exception as e: handler(e)]: [SystemExit] is not
    an [Exception] and passes through. *)
Definition try_except {A} (body : M A) (handler : exn → M A) : M A := λ w,
  match body w with
  | (Err (SystemExit code), w') => (Err (SystemExit code), w')
  | (Err e, w') => handler e w'
  | (Ok a, w') => (Ok a, w')
  end.

Definition print (s : string) : M unit := λ w,
  (Ok (), World (files w) (stdout w ++ [s]) (stderr w) (trace w)).
Definition print_stderr (s : string) : M unit := λ w,
  (Ok (), World (files w) (stdout w) (stderr w ++ [s]) (trace w)).
Definition sys_exit {A} (code : Z) : M A := raise (SystemExit code).
(** [Path(path).exists()], which here always answers; the errors the
    operating system can raise on a path (a name too long, ...) are not
    modelled. *)
Definition path_exists (path : string) : M bool := λ w,
  (Ok (bool_decide (is_Some (files w !! path))), w).

(** Lines 31 to 37: open the file and [json.load] it.  Of the ways
    [open] can fail only the absent file is modelled, and of the ways
    [json.load] can fail only its [JSONDecodeError]; these are the two
    the source catches. *)
Definition load (annotation_file_path : string) : M json := λ w,
  match files w !! annotation_file_path with
  | None =>
      (Err (FileNotFoundError
              ("Annotation file not found: " +:+ annotation_file_path)), w)
  | Some t =>
      let w := log (JsonLoad annotation_file_path) w in
      match json_load t with
      | inl e => (Err (ValueError ("Invalid JSON file: " +:+ e)), w)
      | inr data => (Ok data, w)
      end
  end.

(** Lines 67 to 71: open the output file and [json.dump] into it.  A
    failure is a failure of [open], which leaves the file as it was; a
    [json.dump] that fails after the file was opened (and emptied) is
    not modelled. *)
Definition save (output_file_path : string) (data : json)
    (indent : option nat) : M unit := λ w,
  match write_error output_file_path with
  | Some e => (Err (IOError ("Failed to write output file: " +:+ e)), w)
  | None =>
      (Ok (), write_file output_file_path (json_dump data indent)
                (log (JsonDump output_file_path data indent) w))
  end.

(** The dictionary [clean_coco_annotations] returns. *)
Record stats : Type := Stats {
  categories_removed_count : nat;
  categories_removed : list json;
  annotations_removed_count : nat;
  original_categories_count : nat;
  original_annotations_count : nat;
  final_categories_count : nat;
  final_annotations_count : nat;
  output_file : string;
}.

Definition clean_coco_annotations (annotation_file_path : string)
    (category_ids_to_remove : list Z) (output_file_path : option string)
  : M stats :=
  (* 31-37 *)
  data ← load annotation_file_path;
  (* 39-60 *)
  f ← lift (filter_document data category_ids_to_remove);
  let data := f_data f in
  (* 63-64 *)
  let output_file_path := default annotation_file_path output_file_path in
  (* 67-71 *)
  save output_file_path data
    (if decide (output_file_path ≠ annotation_file_path)
     then Some 2%nat else None);;
  (* 74-85 *)
  categories ← lift (getitem data "categories");
  final_categories_count ← lift (py_len categories);
  annotations ← lift (getitem data "annotations");
  final_annotations_count ← lift (py_len annotations);
  mret (Stats (length (f_categories_removed f))
              (f_categories_removed f)
              (length (f_annotations_removed f))
              (f_original_categories_count f)
              (f_original_annotations_count f)
              final_categories_count
              final_annotations_count
              output_file_path).

(** The namespace [parse_args] returns. *)
Record arguments : Type := Namespace {
  annotation_file : string;
  category_ids : string;
  arg_output_file : option string;
  verbose : bool;
}.

(** [str(v)], which an f-string applies to a loaded value. *)
Definition py_str (v : json) : string :=
  match v with
  | JStr s => s
  | JInt z => pretty z
  | JBool b => if b then "True" else "False"
  | JNull => "None"
  | JFloat _ | JArr _ | JObj _ => py_repr v
  end.

(** [v.get(key, dflt)]. *)
Definition py_get (v : json) (key : string) (dflt : json) : res json :=
  match v with
  | JObj d => Ok (default dflt (Dict.get key d))
  | _ => Err (AttributeError (type_name v +:+ " object has no attribute get"))
  end.

(** Lines 162 to 163: one line per removed category. *)
Fixpoint print_removed (cats : list json) : M unit :=
  match cats with
  | [] => mret ()
  | cat :: cats' =>
      id ← lift (getitem cat "id");
      name ← lift (getitem cat "name");
      supercategory ← lift (py_get cat "supercategory" (JStr "none"));
      print ("  - ID " +:+ py_str id +:+ ": " +:+ py_str name
             +:+ " (supercategory: " +:+ py_str supercategory +:+ ")");;
      print_removed cats'
  end.

Definition newline : string := String "010"%char EmptyString.

(** Lines 128 to 167 of [main], from the parsed arguments on. *)
Definition main (args : arguments) : M unit :=
  (* 131-135 *)
  ids ← match parse_category_ids (category_ids args) with
        | Some ids => mret ids
        | None =>
            print_stderr
              "Error: Category IDs must be integers separated by commas";;
            sys_exit 1
        end;
  (* 137-139 *)
  (if bool_decide (ids = [])
   then print_stderr "Error: At least one category ID must be specified";;
        sys_exit 1
   else mret ());;
  (* 142-144 *)
  found ← path_exists (annotation_file args);
  (if negb found
   then print_stderr
          ("Error: Annotation file not found: " +:+ annotation_file args);;
        sys_exit 1
   else mret ());;
  (* 146-167 *)
  try_except
    (st ← clean_coco_annotations
            (annotation_file args) ids (arg_output_file args);
     print "✓ Successfully cleaned annotation file";;
     print ("  Categories removed: " +:+ pretty (categories_removed_count st)
            +:+ " (from " +:+ pretty (original_categories_count st)
            +:+ " to " +:+ pretty (final_categories_count st) +:+ ")");;
     print ("  Annotations removed: " +:+ pretty (annotations_removed_count st)
            +:+ " (from " +:+ pretty (original_annotations_count st)
            +:+ " to " +:+ pretty (final_annotations_count st) +:+ ")");;
     print ("  Output file: " +:+ output_file st);;
     if verbose args && negb (bool_decide (categories_removed st = []))
     then print (newline +:+ "Removed categories:");;
          print_removed (categories_removed st)
     else mret ())
    (λ e, print_stderr ("Error: " +:+ str_exn e);; sys_exit 1).

(** The exit status of the process that ran [main]. *)
Definition exit_status (r : res unit) : Z :=
  match r with
  | Ok _ => 0
  | Err (SystemExit code) => code
  | Err _ => 1
  end.

End script.

Arguments World {text} _ _ _ _.
Arguments files {text} _.
Arguments stdout {text} _.
Arguments stderr {text} _.
Arguments trace {text} _.
Arguments log {text} _ _.
Arguments write_file {text} _ _ _.
Arguments lift {text A} _ _.
Arguments raise {text A} _ _.
Arguments try_except {text A} _ _ _.
Arguments print {text} _ _.
Arguments print_stderr {text} _ _.
Arguments sys_exit {text A} _ _.
Arguments path_exists {text} _ _.
Arguments load {text} _ _ _.
Arguments save {text} _ _ _ _ _ _.
Arguments clean_coco_annotations {text} _ _ _ _ _ _ _.
Arguments print_removed {text} _ _ _.
Arguments main {text} _ _ _ _ _ _.

(** ** Vocabulary of the statements *)

(** A value a set can hold: anything but a list or a dictionary. *)
Definition hashable (v : json) : bool :=
  match v with
  | JArr _ | JObj _ => false
  | _ => true
  end.

(** A record the filter can test: it has the field [key], and the value
    there is hashable. *)
Definition testable (key : string) (r : json) : Prop :=
  ∃ v, getitem r key = Ok v ∧ hashable v = true.

(** The record is one the filter removes: [r[key] in S] is [True]. *)
Definition removes (key : string) (S : gset Z) (r : json) : Prop :=
  field_in key S r = Ok true.

Global Instance removes_dec key S r : Decision (removes key S r).
Proof. unfold removes. apply _. Defined.

(** The integer a loaded value is equal to in Python, if any: an [int]
    is itself, [True] and [False] are 1 and 0, a [float] is the integer
    with its value; nothing else equals an integer. *)
Definition integer_value (v : json) : option Z :=
  match v with
  | JInt z => Some z
  | JBool b => Some (if b then 1 else 0)
  | JFloat f => float_integer f
  | _ => None
  end.

(** The record has the field [key], and its value is a member of [S].
    This is the specification's [id ∈ S], said without the code's test. *)
Definition listed (key : string) (S : gset Z) (r : json) : Prop :=
  match r with
  | JObj fields =>
      match Dict.get key fields with
      | Some v =>
          match integer_value v with
          | Some z => z ∈ S
          | None => False
          end
      | None => False
      end
  | _ => False
  end.

Global Instance listed_dec key S r : Decision (listed key S r).
Proof.
  unfold listed. destruct r; try apply _.
  destruct (Dict.get key fields) as [v|]; [|apply _].
  destruct (integer_value v); apply _.
Defined.

(** Text of seven-bit characters, on which [strip] and [py_int] are
    Python's [str.strip] and [int]. *)
Definition seven_bit (s : string) : Prop :=
  Forall (λ c, (nat_of_ascii c < 128)%nat) (list_ascii_of_string s).

(** The records of [xs] the filter keeps, and the ones it removes, in
    the order of [xs]. *)
Definition kept (key : string) (S : gset Z) (xs : list json) : list json :=
  filter (λ r, ¬ removes key S r) xs.
Definition removed (key : string) (S : gset Z) (xs : list json) : list json :=
  filter (removes key S) xs.

(** The dictionary the filter makes of [d] when its collections are
    [cats] and [anns]: each replaced, in place, by what is kept of it. *)
Definition cleaned (S : gset Z) (d : list (string * json))
    (cats anns : list json) : list (string * json) :=
  Dict.set "annotations" (JArr (kept "category_id" S anns))
    (Dict.set "categories" (JArr (kept "id" S cats)) d).

(** A document of the data model laid out in a dictionary [d]: the two
    collections are lists of testable records. *)
Definition document (d : list (string * json)) (cats anns : list json) : Prop :=
  Dict.get "categories" d = Some (JArr cats) ∧
  Dict.get "annotations" d = Some (JArr anns) ∧
  Forall (testable "id") cats ∧
  Forall (testable "category_id") anns.

(** The records under [key] that the passes run over: the elements of
    a list or, for an empty dictionary, none. *)
Definition collection (d : list (string * json)) (key : string)
    (xs : list json) : Prop :=
  Dict.get key d = Some (JArr xs) ∨ (Dict.get key d = Some (JObj []) ∧ xs = []).

(** The last thing done in [w] was to dump [data] into the file at
    [path] with [indent], and the file holds the result. *)
Definition dumped {text : Type} (json_dump : json → option nat → text)
    (w : world text) (path : string) (data : json) (indent : option nat)
  : Prop :=
  last (trace w) = Some (JsonDump path data indent) ∧
  files w !! path = Some (json_dump data indent).

(** The world after one more line on standard error. *)
Definition complained {text : Type} (w : world text) (msg : string)
  : world text :=
  World (files w) (stdout w) (stderr w ++ [msg])%list (trace w).

(** An exception that [except Exception] catches: any but
    [SystemExit]. *)
Definition ordinary (e : exn) : Prop :=
  match e with
  | SystemExit _ => False
  | _ => True
  end.

(** The four lines [main] prints after a successful run (lines 155 to
    158). *)
Definition summary (st : stats) : list string :=
  ["✓ Successfully cleaned annotation file";
   "  Categories removed: " +:+ pretty (categories_removed_count st)
     +:+ " (from " +:+ pretty (original_categories_count st)
     +:+ " to " +:+ pretty (final_categories_count st) +:+ ")";
   "  Annotations removed: " +:+ pretty (annotations_removed_count st)
     +:+ " (from " +:+ pretty (original_annotations_count st)
     +:+ " to " +:+ pretty (final_annotations_count st) +:+ ")";
   "  Output file: " +:+ output_file st].

(** The line of line 163 for one removed category, or the exception
    its f-string raises. *)
Definition category_line (py_repr : json → string) (cat : json)
  : res string :=
  id ← getitem cat "id";
  name ← getitem cat "name";
  supercategory ← py_get cat "supercategory" (JStr "none");
  Ok ("  - ID " +:+ py_str py_repr id +:+ ": " +:+ py_str py_repr name
      +:+ " (supercategory: " +:+ py_str py_repr supercategory +:+ ")").

(** The heading of line 161. *)
Definition removed_heading : string := newline +:+ "Removed categories:".

(** A printed message that stays on one line. *)
Definition single_line (s : string) : Prop :=
  "010"%char ∉ list_ascii_of_string s.

(** ** A small environment to run the script in *)

Module Sample.

(** A file holds a rendered value, or text that is not JSON. *)
Inductive text : Type :=
| Garbage
| Rendered (data : json) (indent : option nat).

Definition json_load (t : text) : string + json :=
  match t with
  | Garbage => inl "Expecting value: line 1 column 1 (char 0)"
  | Rendered data _ => inr data
  end.

Definition json_dump (data : json) (indent : option nat) : text :=
  Rendered data indent.

Definition write_error (path : string) : option string :=
  if bool_decide (path = "/locked.json")
  then Some "[Errno 13] Permission denied: '/locked.json'"
  else None.

Definition py_repr (v : json) : string := "...".

Definition category (id : Z) (name : string) : json :=
  JObj [("id", JInt id); ("name", JStr name)].
Definition annotation (id category_id : Z) : json :=
  JObj [("id", JInt id); ("image_id", JInt 7); ("category_id", JInt category_id)].

(** Scenario A of the specification: categories 0, 1 and 39, and four
    annotations of categories 0, 1, 39 and 1. *)
Definition categories_A : list json :=
  [category 0 "a"; category 1 "b"; category 39 "c"].
Definition annotations_A : list json :=
  [annotation 10 0; annotation 11 1; annotation 12 39; annotation 13 1].
Definition dict_A : list (string * json) :=
  [("info", JObj [("year", JInt 2024)]);
   ("images", JArr [JObj [("id", JInt 7)]]);
   ("categories", JArr categories_A);
   ("annotations", JArr annotations_A)].

(** The same without its [annotations]. *)
Definition dict_E : list (string * json) :=
  [("images", JArr []); ("categories", JArr categories_A)].

Definition world_A : world text :=
  World {[ "in.json" := Rendered (JObj dict_A) None;
           "bad.json" := Rendered (JObj dict_E) None ]} [] [] [].

Definition clean := clean_coco_annotations json_load json_dump write_error.
Definition run (args : arguments) := main json_load json_dump write_error py_repr args.

(** A document whose second category has no [name] and a
    [supercategory], whose second annotation has no [category_id]
    (under ["broken.json"]), and files that do not hold a document. *)
Definition categories_N : list json :=
  [category 3 "tree";
   JObj [("id", JInt 4); ("supercategory", JStr "plant")]].
Definition dict_N : list (string * json) :=
  [("categories", JArr categories_N); ("annotations", JArr [annotation 20 4])].
Definition dict_broken : list (string * json) :=
  [("categories", JArr categories_A);
   ("annotations", JArr [annotation 10 0; JObj [("id", JInt 11)]])].
Definition dict_no_id : list (string * json) :=
  [("categories", JArr [category 0 "a"; JObj [("name", JStr "b")]]);
   ("annotations", JArr annotations_A)].
Definition world_N : world text :=
  World {[ "n.json" := Rendered (JObj dict_N) None;
           "broken.json" := Rendered (JObj dict_broken) None;
           "no_id.json" := Rendered (JObj dict_no_id) None;
           "list.json" := Rendered (JArr [JStr "categories"]) None;
           "garbage.json" := Garbage ]} [] [] [].

(** Outcomes of three runs, for reference: categories 0 and 39 removed
    from ["in.json"] into ["out.json"]; id 5 removed in place, which
    removes nothing; id 4 removed from ["n.json"] in place. *)
Definition stats_A : stats :=
  Stats 2 [category 0 "a"; category 39 "c"] 2 3 4 1 2 "out.json".
Definition cleaned_A : world text :=
  (clean "in.json" [0; 39] (Some "out.json") world_A).2.
Definition stats_B : stats := Stats 0 [] 0 3 4 3 4 "in.json".
Definition cleaned_B : world text := (clean "in.json" [5] None world_A).2.
Definition stats_N : stats :=
  Stats 1 [JObj [("id", JInt 4); ("supercategory", JStr "plant")]] 1 2 1 1 0
    "n.json".
Definition cleaned_N : world text := (clean "n.json" [4] None world_N).2.


End Sample.

(** * Properties *)

(** ** Dictionaries *)

Module DictFacts.

Lemma get_set_eq k v d : Dict.get k (Dict.set k v d) = Some v.
Proof.
  induction d as [|[k' v'] d IH]; simpl.
  - by rewrite decide_True.
  - destruct (decide (k' = k)) as [->|Hne]; simpl.
    + by rewrite decide_True.
    + by rewrite decide_False.
Qed.

Lemma get_set_ne k k' v d :
  k ≠ k' → Dict.get k' (Dict.set k v d) = Dict.get k' d.
Proof.
  intros Hne. induction d as [|[k0 v0] d IH]; simpl.
  - by rewrite decide_False.
  - destruct (decide (k0 = k)) as [->|Hne0]; simpl.
    + by rewrite !decide_False.
    + by rewrite IH.
Qed.

Lemma get_Some_key k v d : Dict.get k d = Some v → k ∈ Dict.keys d.
Proof.
  unfold Dict.keys. induction d as [|[k' v'] d IH]; simpl; [done|].
  destruct (decide (k' = k)) as [->|Hne]; intros Hget.
  - apply list_elem_of_here.
  - apply list_elem_of_further. by apply IH.
Qed.

Lemma get_None_key k d : Dict.get k d = None ↔ k ∉ Dict.keys d.
Proof.
  unfold Dict.keys. induction d as [|[k' v'] d IH]; simpl.
  - split; [intros _; apply not_elem_of_nil | done].
  - rewrite not_elem_of_cons. destruct (decide (k' = k)) as [->|Hne].
    + split; [done | by intros [? _]].
    + rewrite IH. intuition congruence.
Qed.

(** Assigning to a key that is present keeps every key where it is. *)
Lemma keys_set_present k v d :
  k ∈ Dict.keys d → Dict.keys (Dict.set k v d) = Dict.keys d.
Proof.
  unfold Dict.keys. induction d as [|[k' v'] d IH]; simpl.
  - by intros ?%elem_of_nil.
  - intros Hin. destruct (decide (k' = k)) as [->|Hne]; simpl; [done|].
    f_equal. apply IH. apply elem_of_cons in Hin as [->|Hin]; done.
Qed.

(** Assigning the value a key already has changes nothing. *)
Lemma set_same k v d : Dict.get k d = Some v → Dict.set k v d = d.
Proof.
  induction d as [|[k' v'] d IH]; simpl; [done|].
  destruct (decide (k' = k)) as [->|Hne]; intros Hget.
  - by simplify_eq.
  - by rewrite IH.
Qed.

End DictFacts.

(** ** The comprehensions *)

Section comprehensions.

Context (key : string) (S : gset Z).

Lemma in_set_hashable v : hashable v = true → ∃ b, in_set v S = Ok b.
Proof. destruct v; simpl; intros; by eauto. Qed.

(** On a testable record both tests answer, with the truth value of
    [removes]. *)
Lemma field_in_testable r :
  testable key r → field_in key S r = Ok (bool_decide (removes key S r)).
Proof.
  intros (v & Hget & Hv). destruct (in_set_hashable v Hv) as [b Hb].
  assert (field_in key S r = Ok b) as Hf.
  { unfold field_in. by rewrite Hget. }
  rewrite Hf. f_equal. symmetry. destruct b.
  - by apply bool_decide_eq_true_2.
  - apply bool_decide_eq_false_2. unfold removes. by rewrite Hf.
Qed.

Lemma field_not_in_testable r :
  testable key r →
  field_not_in key S r = Ok (bool_decide (¬ removes key S r)).
Proof.
  intros Hr. unfold field_not_in. rewrite (field_in_testable r Hr). simpl.
  by rewrite bool_decide_not.
Qed.

(** A comprehension whose test decides [P] on every element is the
    filter by [P]. *)
Lemma comprehension_filter (test : json → res bool) (P : json → Prop)
    `{!∀ x, Decision (P x)} (xs : list json) :
  Forall (λ x, test x = Ok (bool_decide (P x))) xs →
  comprehension test xs = Ok (filter P xs).
Proof.
  induction 1 as [|x xs Hx _ IH]; simpl; [done|].
  rewrite Hx. simpl. rewrite IH. simpl. rewrite filter_cons.
  destruct (decide (P x)) as [Hp|Hp].
  - by rewrite bool_decide_eq_true_2.
  - by rewrite bool_decide_eq_false_2.
Qed.

Lemma kept_filter xs :
  Forall (testable key) xs →
  comprehension (field_not_in key S) xs
  = Ok (filter (λ r, ¬ removes key S r) xs).
Proof.
  intros Hxs. apply comprehension_filter.
  eapply Forall_impl; [exact Hxs|]. apply field_not_in_testable.
Qed.

Lemma removed_filter xs :
  Forall (testable key) xs →
  comprehension (field_in key S) xs = Ok (filter (removes key S) xs).
Proof.
  intros Hxs. apply comprehension_filter.
  eapply Forall_impl; [exact Hxs|]. apply field_in_testable.
Qed.

Lemma testable_filter (P : json → Prop) `{!∀ x, Decision (P x)} xs :
  Forall (testable key) xs → Forall (testable key) (filter P xs).
Proof.
  rewrite !Forall_forall. intros Hxs r [_ Hr]%list_elem_of_filter. auto.
Qed.

End comprehensions.

(** ** Lines 39 to 60 *)

Section filter_document.

Context (d : list (string * json)) (cats anns : list json) (ids : list Z).
#[local] Abbreviation S := (list_to_set ids : gset Z).

#[local] Abbreviation cleaned := (cleaned S d cats anns).

Lemma filter_document_missing_categories :
  "categories" ∉ Dict.keys d →
  filter_document (JObj d) ids = Err missing_categories.
Proof.
  intros Hc. unfold filter_document. simpl.
  by rewrite bool_decide_eq_false_2.
Qed.

Lemma filter_document_missing_annotations :
  "categories" ∈ Dict.keys d → "annotations" ∉ Dict.keys d →
  filter_document (JObj d) ids = Err missing_annotations.
Proof.
  intros Hc Ha. unfold filter_document. simpl.
  rewrite bool_decide_eq_true_2 by done. simpl.
  by rewrite bool_decide_eq_false_2.
Qed.

(** On a document of the data model the two passes succeed, and leave
    the kept records in the document and the removed ones aside. *)
Lemma filter_document_document :
  document d cats anns →
  filter_document (JObj d) ids
  = Ok (Filtered (JObj cleaned) (length cats) (length anns)
          (removed "id" S cats) (removed "category_id" S anns)).
Proof.
  intros (Hc & Ha & Hcats & Hanns). unfold filter_document. simpl.
  rewrite !bool_decide_eq_true_2 by eauto using DictFacts.get_Some_key.
  simpl. rewrite Hc, Ha. simpl.
  rewrite (kept_filter "id" _ cats Hcats). simpl.
  rewrite (removed_filter "id" _ cats Hcats). simpl.
  rewrite DictFacts.get_set_ne, Ha by done. simpl.
  rewrite (kept_filter "category_id" _ anns Hanns). simpl.
  by rewrite (removed_filter "category_id" _ anns Hanns).
Qed.

Lemma cleaned_categories :
  Dict.get "categories" cleaned = Some (JArr (kept "id" S cats)).
Proof.
  unfold cleaned. rewrite DictFacts.get_set_ne by done.
  apply DictFacts.get_set_eq.
Qed.

Lemma cleaned_annotations :
  Dict.get "annotations" cleaned = Some (JArr (kept "category_id" S anns)).
Proof. apply DictFacts.get_set_eq. Qed.

Lemma cleaned_other k :
  k ≠ "categories" → k ≠ "annotations" →
  Dict.get k cleaned = Dict.get k d.
Proof.
  intros Hc Ha. unfold cleaned. by rewrite !DictFacts.get_set_ne.
Qed.

Lemma cleaned_keys :
  document d cats anns → Dict.keys cleaned = Dict.keys d.
Proof.
  intros (Hc & Ha & _). unfold cleaned.
  rewrite !DictFacts.keys_set_present;
    eauto using DictFacts.get_Some_key.
  rewrite DictFacts.keys_set_present; eauto using DictFacts.get_Some_key.
Qed.

(** What the filter leaves is again a document of the data model. *)
Lemma cleaned_document :
  document d cats anns →
  document cleaned (kept "id" S cats) (kept "category_id" S anns).
Proof.
  intros (Hc & Ha & Hcats & Hanns).
  split; [apply cleaned_categories|].
  split; [apply cleaned_annotations|].
  split; by apply testable_filter.
Qed.

End filter_document.

(** ** What [removes], [kept] and [removed] mean *)

(** On a record whose field is an integer, as the data model has it,
    the filter removes the record exactly when the integer is in the
    set. *)
Lemma removes_integer key S fields z :
  Dict.get key fields = Some (JInt z) →
  removes key S (JObj fields) ↔ z ∈ S.
Proof.
  intros Hget. unfold removes, field_in. simpl. rewrite Hget. simpl.
  split.
  - intros [= Hz]. by apply bool_decide_eq_true_1 in Hz.
  - intros Hz. by rewrite bool_decide_eq_true_2.
Qed.

(** The code's test is the specification's membership: the filter
    removes a record exactly when its field is a member of the set. *)
Lemma removes_listed key S r : removes key S r ↔ listed key S r.
Proof.
  unfold removes, listed, field_in, mbind, res_bind.
  destruct r; simpl; try (split; [discriminate | done]).
  destruct (Dict.get key fields) as [v|]; simpl;
    [|split; [discriminate | done]].
  destruct v; simpl; try (split; [discriminate | done]).
  - split; [intros [= ?%bool_decide_eq_true]; done|].
    intros ?. by rewrite bool_decide_eq_true_2.
  - split; [intros [= ?%bool_decide_eq_true]; done|].
    intros ?. by rewrite bool_decide_eq_true_2.
  - destruct (float_integer f); [|split; [discriminate | done]].
    split; [intros [= ?%bool_decide_eq_true]; done|].
    intros ?. by rewrite bool_decide_eq_true_2.
Qed.

(** What is kept is what is not listed. *)
Lemma kept_not_listed key S xs :
  kept key S xs = filter (λ r, ¬ listed key S r) xs.
Proof.
  unfold kept. apply list_filter_iff. intros r. by rewrite removes_listed.
Qed.

Lemma elem_of_kept key S xs r :
  r ∈ kept key S xs ↔ r ∈ xs ∧ ¬ removes key S r.
Proof. unfold kept. rewrite list_elem_of_filter. tauto. Qed.

Lemma elem_of_removed key S xs r :
  r ∈ removed key S xs ↔ r ∈ xs ∧ removes key S r.
Proof. unfold removed. rewrite list_elem_of_filter. tauto. Qed.

Lemma kept_sublist key S xs : kept key S xs `sublist_of` xs.
Proof. apply sublist_filter. Qed.

Lemma removed_sublist key S xs : removed key S xs `sublist_of` xs.
Proof. apply sublist_filter. Qed.

(** Every record is kept or removed, and none is both. *)
Lemma kept_removed_permutation key S xs :
  xs ≡ₚ kept key S xs ++ removed key S xs.
Proof.
  unfold kept, removed. symmetry.
  rewrite (comm (++)). apply filter_app_complement.
Qed.

Lemma kept_removed_length key S xs :
  length xs = (length (kept key S xs) + length (removed key S xs))%nat.
Proof. by rewrite (kept_removed_permutation key S xs) at 1; rewrite length_app. Qed.

(** Nothing that was kept is removed by a second pass. *)
Lemma removed_kept key S xs : removed key S (kept key S xs) = [].
Proof.
  unfold removed, kept. induction xs as [|x xs IH]; [done|].
  rewrite filter_cons. destruct (decide (¬ removes key S x)) as [Hx|Hx].
  - by rewrite filter_cons_False.
  - done.
Qed.

Lemma kept_kept key S xs : kept key S (kept key S xs) = kept key S xs.
Proof.
  unfold kept. induction xs as [|x xs IH]; [done|].
  rewrite filter_cons. destruct (decide (¬ removes key S x)) as [Hx|Hx].
  - by rewrite filter_cons_True, IH.
  - done.
Qed.

(** When the set meets no record, all are kept. *)
Lemma kept_all key S xs :
  Forall (λ r, ¬ removes key S r) xs → kept key S xs = xs.
Proof.
  unfold kept. induction 1 as [|x xs Hx _ IH]; [done|].
  by rewrite filter_cons_True, IH.
Qed.

(** ** Lines 39 to 60, again *)

(** A second pass over what the first one left removes nothing. *)
Lemma filter_document_twice d cats anns ids :
  document d cats anns →
  ∃ f1 f2,
    filter_document (JObj d) ids = Ok f1 ∧
    filter_document (f_data f1) ids = Ok f2 ∧
    f_data f2 = f_data f1 ∧
    f_categories_removed f2 = [] ∧ f_annotations_removed f2 = [].
Proof.
  intros Hdoc. eexists _, _.
  split; [by apply filter_document_document|]. simpl.
  split; [by apply filter_document_document, cleaned_document|]. simpl.
  rewrite !removed_kept. split; [|done].
  unfold cleaned. rewrite !kept_kept. f_equal.
  rewrite (DictFacts.set_same "categories"); [|apply cleaned_categories].
  rewrite DictFacts.set_same; [done|apply cleaned_annotations].
Qed.

(** *** The inputs the passes accept *)

Lemma comprehension_Ok_inv test xs ys :
  comprehension test xs = Ok ys → Forall (λ x, ∃ b, test x = Ok b) xs.
Proof.
  revert ys. induction xs as [|x xs IH]; intros ys; simpl; [by constructor|].
  destruct (test x) as [b|] eqn:Hx; simpl; [|done].
  destruct (comprehension test xs) as [zs|]; simpl; [|done].
  intros _. constructor; eauto.
Qed.

Lemma field_not_in_Ok_testable key S r b :
  field_not_in key S r = Ok b → testable key r.
Proof.
  unfold field_not_in, field_in.
  destruct (getitem r key) as [v|] eqn:Hget; simpl; [|done].
  intros Hin. exists v. split; [done|]. by destruct v.
Qed.

(** What can be copied, run over and tested without an exception is a
    list of testable records, or an empty dictionary. *)
Lemma iter_testable key S c c' xs ys :
  py_copy c = Ok c' → py_iter c = Ok xs →
  comprehension (field_not_in key S) xs = Ok ys →
  (c = JArr xs ∨ (c = JObj [] ∧ xs = [])) ∧ Forall (testable key) xs.
Proof.
  intros Hcopy Hiter Hcomp.
  assert (Forall (testable key) xs) as Hxs.
  { eapply Forall_impl; [by eapply comprehension_Ok_inv|].
    intros r [b Hb]. by eapply field_not_in_Ok_testable. }
  split; [|done].
  destruct c; simplify_eq/=; [by left|].
  right. destruct fields as [|[k v] fields]; [done|].
  simpl in Hxs. apply Forall_cons in Hxs as [(? & Hget & _) _]. done.
Qed.

Ltac bind_inv H :=
  match type of H with
  | match ?m with Ok _ => _ | Err _ => _ end = _ =>
      let E := fresh "E" in destruct m eqn:E; [|discriminate H]
  | (if ?b then _ else _) = _ =>
      let E := fresh "E" in destruct b eqn:E; [discriminate H|]
  end.

(** The two passes succeed only on a dictionary whose two collections
    are lists of testable records (or empty dictionaries). *)
Lemma filter_document_Ok_inv data ids f :
  filter_document data ids = Ok f →
  ∃ d cats anns,
    data = JObj d ∧ collection d "categories" cats ∧
    collection d "annotations" anns ∧
    Forall (testable "id") cats ∧ Forall (testable "category_id") anns.
Proof.
  unfold filter_document, mbind, res_bind. intros H.
  do 4 bind_inv H.
  destruct data as [| | | | |l|d]; simpl in *; try discriminate.
  repeat bind_inv H.
  destruct (Dict.get "categories" d) as [categories|] eqn:Hc; [|done].
  rewrite DictFacts.get_set_ne in E12 by done.
  destruct (Dict.get "annotations" d) as [annotations|] eqn:Ha; [|done].
  simplify_eq.
  destruct (iter_testable _ _ _ _ _ _ E7 E8 E9) as [Hcats ?].
  destruct (iter_testable _ _ _ _ _ _ E13 E14 E15) as [Hanns ?].
  exists d, a6, a12. split; [done|].
  split; [destruct Hcats as [->|[-> ->]]; [by left | by right]|].
  split; [destruct Hanns as [->|[-> ->]]; [by left | by right]|].
  done.
Qed.

(** ** [clean_coco_annotations] *)

(** A failed validation: the file is loaded, nothing is written. *)
Section malformed.

Context {text : Type}.
Context (json_load : text → string + json).
Context (json_dump : json → option nat → text).
Context (write_error : string → option string).
#[local] Abbreviation clean :=
  (clean_coco_annotations json_load json_dump write_error).

Context (w : world text) (path : string) (ids : list Z) (out : option string).
Context (t : text) (d : list (string * json)).
Hypothesis file_there : files w !! path = Some t.
Hypothesis file_loads : json_load t = inr (JObj d).

Lemma clean_missing_categories :
  "categories" ∉ Dict.keys d →
  clean path ids out w = (Err missing_categories, log (JsonLoad path) w).
Proof.
  intros Hc. unfold clean_coco_annotations, mbind, M_bind, load, lift.
  rewrite file_there, file_loads.
  by rewrite filter_document_missing_categories.
Qed.

Lemma clean_missing_annotations :
  "categories" ∈ Dict.keys d → "annotations" ∉ Dict.keys d →
  clean path ids out w = (Err missing_annotations, log (JsonLoad path) w).
Proof.
  intros Hc Ha. unfold clean_coco_annotations, mbind, M_bind, load, lift.
  rewrite file_there, file_loads.
  by rewrite filter_document_missing_annotations.
Qed.

(** C3: when the loaded document has no ['categories'] key or no
    ['annotations'] key, [clean_coco_annotations] raises the
    [ValueError] of the missing field, and the world it leaves differs
    from the one it found by the [json.load] alone: no file is written
    or changed, no [json.dump] takes place, nothing is printed. *)
Theorem missing_field_fails_before_writing :
  "categories" ∉ Dict.keys d ∨ "annotations" ∉ Dict.keys d →
  ∃ e w',
    clean path ids out w = (Err e, w') ∧
    (e = missing_categories ∨ e = missing_annotations) ∧
    files w' = files w ∧
    trace w' = (trace w ++ [JsonLoad path])%list ∧
    stdout w' = stdout w ∧ stderr w' = stderr w.
Proof.
  intros Hmissing.
  destruct (decide ("categories" ∈ Dict.keys d)) as [Hc|Hc].
  - destruct Hmissing as [?|Ha]; [done|].
    exists missing_annotations, (log (JsonLoad path) w).
    rewrite clean_missing_annotations by done. auto 10.
  - exists missing_categories, (log (JsonLoad path) w).
    rewrite clean_missing_categories by done. auto 10.
Qed.

End malformed.

(** A run on a document of the data model, in a file that is there and
    loads, towards a file that can be written. *)
Section run_outcome.

Context {text : Type}.
Context (json_load : text → string + json).
Context (json_dump : json → option nat → text).
Context (write_error : string → option string).
#[local] Abbreviation clean :=
  (clean_coco_annotations json_load json_dump write_error).

Context (w : world text) (path : string) (ids : list Z) (out : option string).
Context (t : text) (d : list (string * json)) (cats anns : list json).
#[local] Abbreviation S := (list_to_set ids : gset Z).

Hypothesis file_there : files w !! path = Some t.
Hypothesis file_loads : json_load t = inr (JObj d).
Hypothesis well_formed : document d cats anns.
Hypothesis writable : write_error (default path out) = None.

(** The path written to, and the [indent] passed to [json.dump]. *)
#[local] Abbreviation target := (default path out).
#[local] Abbreviation indent :=
  (if decide (default path out ≠ path) then Some 2%nat else None).

(** The whole outcome: the statistics, and the world with the cleaned
    document dumped into the target. *)
Lemma clean_run :
  clean path ids out w =
  (Ok (Stats (length (removed "id" S cats))
             (removed "id" S cats)
             (length (removed "category_id" S anns))
             (length cats)
             (length anns)
             (length (kept "id" S cats))
             (length (kept "category_id" S anns))
             target),
   write_file target (json_dump (JObj (cleaned S d cats anns)) indent)
     (log (JsonDump target (JObj (cleaned S d cats anns)) indent)
        (log (JsonLoad path) w))).
Proof.
  unfold clean_coco_annotations, mbind, M_bind, load, lift, save.
  rewrite file_there, file_loads.
  rewrite (filter_document_document d cats anns ids well_formed).
  cbn [f_data f_categories_removed f_annotations_removed
       f_original_categories_count f_original_annotations_count].
  rewrite writable. cbn [getitem].
  rewrite cleaned_categories, cleaned_annotations. reflexivity.
Qed.

Lemma clean_run_dumped st w' :
  clean path ids out w = (Ok st, w') →
  dumped json_dump w' (output_file st) (JObj (cleaned S d cats anns)) indent.
Proof.
  rewrite clean_run. intros [= <- <-]. split; simpl.
  - apply last_snoc.
  - apply lookup_insert_eq.
Qed.

End run_outcome.

(** Properties of such a run. *)
Section run.

Context {text : Type}.
Context (json_load : text → string + json).
Context (json_dump : json → option nat → text).
Context (write_error : string → option string).
#[local] Abbreviation clean :=
  (clean_coco_annotations json_load json_dump write_error).

Context (w : world text) (path : string) (ids : list Z) (out : option string).
Context (t : text) (d : list (string * json)) (cats anns : list json).
#[local] Abbreviation S := (list_to_set ids : gset Z).

Hypothesis file_there : files w !! path = Some t.
Hypothesis file_loads : json_load t = inr (JObj d).
Hypothesis well_formed : document d cats anns.
Hypothesis writable : write_error (default path out) = None.

(** The common opening of the proofs below: name the outcome. *)
Ltac run_outcome st w' Hrun Hdump :=
  pose proof (clean_run json_load json_dump write_error w path ids out
                t d cats anns file_there file_loads well_formed writable)
    as Hrun;
  pose proof (clean_run_dumped json_load json_dump write_error w path ids
                out t d cats anns file_there file_loads well_formed writable
                _ _ Hrun) as Hdump;
  match type of Hrun with _ = (Ok ?s, ?v) => set (st := s) in *; set (w' := v) in * end.

(** The members of a filtered list whose field is an integer: those of
    the input whose integer is not among the ids. *)
Lemma not_listed_integer key (xs : list json) fields z :
  Dict.get key fields = Some (JInt z) →
  JObj fields ∈ filter (λ r, ¬ listed key S r) xs
  ↔ JObj fields ∈ xs ∧ z ∉ ids.
Proof.
  intros Hget. rewrite list_elem_of_filter. unfold listed.
  rewrite Hget. simpl. rewrite elem_of_list_to_set. tauto.
Qed.

(** C1: on every document and removal set, the run succeeds and the
    document it dumps has as ['categories'] exactly the categories of
    the input whose [id] is not in the set, in their original order: the
    input list filtered by "the [id] is not a member of the set", a
    sublist of the input.  For a category whose [id] is an integer [z],
    as the data model has it, it is in the output exactly when it is in
    the input and [z] is not among the ids given. *)
Theorem categories_filtered :
  ∃ st w' d' ind cats',
    clean path ids out w = (Ok st, w') ∧
    dumped json_dump w' (output_file st) (JObj d') ind ∧
    Dict.get "categories" d' = Some (JArr cats') ∧
    cats' = filter (λ c, ¬ listed "id" S c) cats ∧
    cats' `sublist_of` cats ∧
    (∀ c, c ∈ cats' ↔ c ∈ cats ∧ ¬ listed "id" S c) ∧
    (∀ fields z, Dict.get "id" fields = Some (JInt z) →
                 JObj fields ∈ cats' ↔ JObj fields ∈ cats ∧ z ∉ ids).
Proof.
  run_outcome st w' Hrun Hdump.
  exists st, w'. eexists _, _, _.
  split; [exact Hrun|]. split; [exact Hdump|].
  split; [apply cleaned_categories|].
  split; [apply kept_not_listed|]. rewrite kept_not_listed.
  split; [apply sublist_filter|].
  split; [intros c; rewrite list_elem_of_filter; tauto|].
  intros fields z. apply not_listed_integer.
Qed.

(** C2: on every document and removal set, the run succeeds and the
    document it dumps has as ['annotations'] exactly the annotations of
    the input whose [category_id] is not in the set, in their original
    order.  The categories of the document do not enter: [cats] is
    arbitrary, and an annotation with integer [category_id] [z] is in
    the output exactly when it is in the input and [z] is not among the
    ids given, whether or not a category has that id. *)
Theorem annotations_filtered :
  ∃ st w' d' ind anns',
    clean path ids out w = (Ok st, w') ∧
    dumped json_dump w' (output_file st) (JObj d') ind ∧
    Dict.get "annotations" d' = Some (JArr anns') ∧
    anns' = filter (λ a, ¬ listed "category_id" S a) anns ∧
    anns' `sublist_of` anns ∧
    (∀ a, a ∈ anns' ↔ a ∈ anns ∧ ¬ listed "category_id" S a) ∧
    (∀ fields z, Dict.get "category_id" fields = Some (JInt z) →
                 JObj fields ∈ anns' ↔ JObj fields ∈ anns ∧ z ∉ ids).
Proof.
  run_outcome st w' Hrun Hdump.
  exists st, w'. eexists _, _, _.
  split; [exact Hrun|]. split; [exact Hdump|].
  split; [apply cleaned_annotations|].
  split; [apply kept_not_listed|]. rewrite kept_not_listed.
  split; [apply sublist_filter|].
  split; [intros a; rewrite list_elem_of_filter; tauto|].
  intros fields z. apply not_listed_integer.
Qed.

(** C4: the dumped document has the keys of the input in the same
    order; under every key but ['categories'] and ['annotations'] it has
    the value of the input; and the records it retains are records of
    the input themselves, in the same order (sublists of the input's
    lists), so each keeps all of its fields. *)
Theorem other_keys_and_records_unchanged :
  ∃ st w' d' ind cats' anns',
    clean path ids out w = (Ok st, w') ∧
    dumped json_dump w' (output_file st) (JObj d') ind ∧
    Dict.keys d' = Dict.keys d ∧
    (∀ k, k ≠ "categories" → k ≠ "annotations" →
          Dict.get k d' = Dict.get k d) ∧
    Dict.get "categories" d' = Some (JArr cats') ∧
    Dict.get "annotations" d' = Some (JArr anns') ∧
    cats' `sublist_of` cats ∧ anns' `sublist_of` anns ∧
    (∀ c, c ∈ cats' → c ∈ cats) ∧ (∀ a, a ∈ anns' → a ∈ anns).
Proof.
  run_outcome st w' Hrun Hdump.
  exists st, w'. eexists _, _, _, _. split; [exact Hrun|]. split; [exact Hdump|].
  split; [by apply cleaned_keys|].
  split; [intros k; apply cleaned_other|].
  split; [apply cleaned_categories|].
  split; [apply cleaned_annotations|].
  split; [apply kept_sublist|]. split; [apply kept_sublist|].
  split; intros r Hr; by apply elem_of_kept in Hr as [? _].
Qed.

(** C6: when the filter removes no category and no annotation of the
    document (the set is disjoint from their ids), the dumped document
    is the input, and so are its ['categories'] and ['annotations']. *)
Theorem disjoint_set_changes_nothing :
  Forall (λ c, ¬ removes "id" S c) cats →
  Forall (λ a, ¬ removes "category_id" S a) anns →
  ∃ st w' ind,
    clean path ids out w = (Ok st, w') ∧
    dumped json_dump w' (output_file st) (JObj d) ind ∧
    Dict.get "categories" d = Some (JArr cats) ∧
    Dict.get "annotations" d = Some (JArr anns).
Proof.
  intros Hcats Hanns. run_outcome st w' Hrun Hdump.
  destruct well_formed as (Hc & Ha & _).
  assert (cleaned S d cats anns = d) as Hsame.
  { unfold cleaned. rewrite (kept_all _ _ cats Hcats), (kept_all _ _ anns Hanns).
    rewrite (DictFacts.set_same "categories") by done.
    by rewrite DictFacts.set_same. }
  rewrite Hsame in Hdump. eauto 10.
Qed.

(** C7: the statistics of a successful run: the removed categories and
    their number, the number of removed annotations, the lengths of the
    two input lists, the lengths of the two lists of the dumped
    document, and the path written to (the output path, or the input
    path when none was given). *)
Theorem statistics_report :
  ∃ st w' d' ind cats' anns',
    clean path ids out w = (Ok st, w') ∧
    dumped json_dump w' (output_file st) (JObj d') ind ∧
    Dict.get "categories" d' = Some (JArr cats') ∧
    Dict.get "annotations" d' = Some (JArr anns') ∧
    categories_removed st = removed "id" S cats ∧
    categories_removed_count st = length (categories_removed st) ∧
    annotations_removed_count st = length (removed "category_id" S anns) ∧
    original_categories_count st = length cats ∧
    original_annotations_count st = length anns ∧
    final_categories_count st = length cats' ∧
    final_annotations_count st = length anns' ∧
    output_file st = default path out.
Proof.
  run_outcome st w' Hrun Hdump.
  exists st, w'. eexists _, _, _, _. split; [exact Hrun|]. split; [exact Hdump|].
  split; [apply cleaned_categories|].
  split; [apply cleaned_annotations|].
  simpl. auto 10.
Qed.

(** C8: [json.dump] is given [indent=2] when the path written to differs
    from the input path, and no indent when it is the input path, which
    is the case when no output path is given or the one given is the
    input path. *)
Theorem indent_iff_distinct_output :
  ∃ st w' d' ind,
    clean path ids out w = (Ok st, w') ∧
    dumped json_dump w' (output_file st) (JObj d') ind ∧
    output_file st = default path out ∧
    (ind = Some 2%nat ↔ output_file st ≠ path) ∧
    (ind = None ↔ output_file st = path) ∧
    (out = None ∨ out = Some path → ind = None).
Proof.
  run_outcome st w' Hrun Hdump.
  exists st, w'. eexists _, _. split; [exact Hrun|]. split; [exact Hdump|].
  simpl. split; [done|].
  destruct (decide (default path out ≠ path)) as [Hne|Heq%dec_stable].
  - split; [by split|]. split; [split; [done | intros ?; by destruct Hne]|].
    intros [->| ->]; by destruct Hne.
  - split; [split; [done | intros ?; contradiction]|]. by split.
Qed.

(** C10: in the statistics of a successful run each final count is the
    original count less the removed count, for categories and for
    annotations, and the categories of the input are, up to order, the
    kept ones followed by the removed ones. *)
Theorem statistics_add_up :
  ∃ st w' d' ind cats',
    clean path ids out w = (Ok st, w') ∧
    dumped json_dump w' (output_file st) (JObj d') ind ∧
    Dict.get "categories" d' = Some (JArr cats') ∧
    (final_categories_count st
     = original_categories_count st - categories_removed_count st)%nat ∧
    (final_annotations_count st
     = original_annotations_count st - annotations_removed_count st)%nat ∧
    (original_categories_count st
     = final_categories_count st + categories_removed_count st)%nat ∧
    (original_annotations_count st
     = final_annotations_count st + annotations_removed_count st)%nat ∧
    cats ≡ₚ cats' ++ categories_removed st.
Proof.
  run_outcome st w' Hrun Hdump.
  exists st, w'. eexists _, _, _. split; [exact Hrun|]. split; [exact Hdump|].
  split; [apply cleaned_categories|]. simpl.
  pose proof (kept_removed_length "id" S cats).
  pose proof (kept_removed_length "category_id" S anns).
  repeat split; try lia. apply kept_removed_permutation.
Qed.

(** C5: run the script again, with the same ids, on the file the first
    run wrote, where that file loads as the document dumped into it
    and the second target can be written: the second run succeeds and
    removes nothing, no category and no annotation. *)
Theorem second_run_removes_nothing (out2 : option string) :
  (∀ ind, json_load (json_dump (JObj (cleaned S d cats anns)) ind)
          = inr (JObj (cleaned S d cats anns))) →
  write_error (default (default path out) out2) = None →
  ∃ st1 w1 st2 w2,
    clean path ids out w = (Ok st1, w1) ∧
    clean (output_file st1) ids out2 w1 = (Ok st2, w2) ∧
    categories_removed_count st2 = 0%nat ∧
    annotations_removed_count st2 = 0%nat ∧
    categories_removed st2 = [] ∧
    final_categories_count st2 = final_categories_count st1 ∧
    final_annotations_count st2 = final_annotations_count st1.
Proof.
  intros Hcodec Hwrite2. run_outcome st w' Hrun Hdump.
  destruct Hdump as [_ Hfile]. simpl in Hfile.
  pose proof (clean_run json_load json_dump write_error w' (default path out)
                ids out2 _ _ _ _ Hfile (Hcodec _)
                (cleaned_document _ _ _ _ well_formed) Hwrite2) as Hrun2.
  exists st, w'. eexists _, _. split; [exact Hrun|].
  split; [exact Hrun2|]. simpl.
  by rewrite !removed_kept, !kept_kept.
Qed.

End run.

(** The hypotheses of the section above are what a successful run
    needs: the file is there and loads as a dictionary, its two
    collections are lists of testable records (or empty dictionaries),
    and the target can be written. *)
Lemma clean_Ok_inv {text : Type} (json_load : text → string + json)
    (json_dump : json → option nat → text)
    (write_error : string → option string)
    (w w' : world text) path ids out st :
  clean_coco_annotations json_load json_dump write_error path ids out w
  = (Ok st, w') →
  ∃ t d cats anns,
    files w !! path = Some t ∧ json_load t = inr (JObj d) ∧
    collection d "categories" cats ∧ collection d "annotations" anns ∧
    Forall (testable "id") cats ∧ Forall (testable "category_id") anns ∧
    write_error (default path out) = None.
Proof.
  unfold clean_coco_annotations, mbind, M_bind, load, lift, save.
  destruct (files w !! path) as [t|]; [|done].
  destruct (json_load t) as [?|data] eqn:Hload; [done|].
  destruct (filter_document data ids) as [f|] eqn:Hf; [|done].
  destruct (write_error (default path out)); [done|]. intros _.
  destruct (filter_document_Ok_inv _ _ _ Hf)
    as (d & cats & anns & -> & ? & ? & ? & ?).
  by exists t, d, cats, anns.
Qed.

(** ** [main] *)

(** The list of ids fails to parse exactly when one of the pieces
    between the commas is no integer. *)
Lemma parse_category_ids_None s :
  parse_category_ids s = None ↔
  ∃ id_str, id_str ∈ split_on ","%char s ∧ py_int (strip id_str) = None.
Proof.
  unfold parse_category_ids. rewrite mapM_None, Exists_exists. done.
Qed.

Lemma split_on_not_nil sep s : split_on sep s ≠ [].
Proof.
  destruct s as [|c s]; simpl; [done|].
  destruct (decide (c = sep)); [done|]. by destruct (split_on sep s).
Qed.

(** A parsed list of ids has an element: the test of line 137 never
    fires. *)
Lemma parse_category_ids_not_nil s : parse_category_ids s ≠ Some [].
Proof.
  unfold parse_category_ids. intros Hnil%length_mapM.
  by apply (split_on_not_nil ","%char s), nil_length_inv.
Qed.

Lemma ids_message_single_line :
  single_line "Error: Category IDs must be integers separated by commas".
Proof. unfold single_line. by apply (bool_decide_unpack _). Qed.

Section command_line.

Context {text : Type}.
Context (json_load : text → string + json).
Context (json_dump : json → option nat → text).
Context (write_error : string → option string).
Context (py_repr : json → string).
#[local] Abbreviation run :=
  (main json_load json_dump write_error py_repr).

Lemma main_bad_ids args (w : world text) :
  parse_category_ids (category_ids args) = None →
  run args w
  = (Err (SystemExit 1),
     complained w "Error: Category IDs must be integers separated by commas").
Proof. intros Hparse. unfold main, mbind, M_bind. by rewrite Hparse. Qed.

Lemma main_no_file args (w : world text) ids :
  parse_category_ids (category_ids args) = Some ids →
  files w !! annotation_file args = None →
  run args w
  = (Err (SystemExit 1),
     complained w ("Error: Annotation file not found: " +:+ annotation_file args)).
Proof.
  intros Hparse Hfile. unfold main, mbind, M_bind. rewrite Hparse.
  unfold mret, M_ret.
  case_bool_decide as Hnil;
    [subst ids; by apply parse_category_ids_not_nil in Hparse|].
  unfold path_exists. rewrite Hfile.
  case_bool_decide as Hsome; [by destruct Hsome|]. done.
Qed.

(** C9: when a piece of the category-id argument is no integer (a
    piece of seven-bit text, where [strip] and [py_int] are Python's
    [str.strip] and [int]; the other pieces are arbitrary), or the
    argument is empty, the process exits with status 1 after printing
    one message, of a single line, on standard error; it prints nothing
    on standard output, leaves every file as it was and dumps nothing.
    When the annotation file does not exist, the process exits with
    status 1 with the files as they were and without a [json.load] or
    [json.dump] having taken place. *)
Theorem main_rejects_bad_arguments args (w : world text) :
  ((∃ id_str, id_str ∈ split_on ","%char (category_ids args) ∧
              seven_bit id_str ∧ py_int (strip id_str) = None) ∨
   category_ids args = "" →
   ∃ msg w',
     run args w = (Err (SystemExit 1), w') ∧
     exit_status (run args w).1 = 1 ∧
     stderr w' = (stderr w ++ [msg])%list ∧ single_line msg ∧
     stdout w' = stdout w ∧ files w' = files w ∧ trace w' = trace w) ∧
  (files w !! annotation_file args = None →
   ∃ w',
     run args w = (Err (SystemExit 1), w') ∧
     exit_status (run args w).1 = 1 ∧
     files w' = files w ∧ trace w' = trace w).
Proof.
  split.
  - intros Hbad.
    assert (parse_category_ids (category_ids args) = None) as Hparse.
    { destruct Hbad as [(id_str & ? & _ & ?)| ->]; [|done].
      apply parse_category_ids_None. by exists id_str. }
    eexists _, _. rewrite (main_bad_ids args w Hparse).
    split; [reflexivity|]. simpl.
    split; [done|]. split; [done|].
    split; [apply ids_message_single_line | done].
  - intros Hfile.
    destruct (parse_category_ids (category_ids args)) as [ids|] eqn:Hparse.
    + eexists. rewrite (main_no_file args w ids Hparse Hfile).
      split; [reflexivity | done].
    + eexists. rewrite (main_bad_ids args w Hparse).
      split; [reflexivity | done].
Qed.

End command_line.

(** ** The script at work *)

(** Scenario A: removing categories 0 and 39 leaves category 1 and its
    two annotations, and the statistics say so. *)
Example scenario_A_statistics :
  (Sample.clean "in.json" [0; 39] (Some "out.json") Sample.world_A).1
  = Ok (Stats 2 [Sample.category 0 "a"; Sample.category 39 "c"] 2 3 4 1 2
          "out.json").
Proof. vm_compute. reflexivity. Qed.

Example scenario_A_document :
  ∃ d',
    files (Sample.clean "in.json" [0; 39] (Some "out.json") Sample.world_A).2
      !! "out.json"
    = Some (Sample.Rendered (JObj d') (Some 2%nat)) ∧
    Dict.get "categories" d' = Some (JArr [Sample.category 1 "b"]) ∧
    Dict.get "annotations" d'
    = Some (JArr [Sample.annotation 11 1; Sample.annotation 13 1]) ∧
    Dict.get "images" d' = Dict.get "images" Sample.dict_A.
Proof. eexists. split; [vm_compute; reflexivity|]. by vm_compute. Qed.

(** Scenario B: an id that occurs nowhere removes nothing. *)
Example scenario_B :
  let r := Sample.run (Namespace "in.json" "5" None false) Sample.world_A in
  exit_status r.1 = 0 ∧
  stdout r.2 = ["✓ Successfully cleaned annotation file";
                "  Categories removed: 0 (from 3 to 3)";
                "  Annotations removed: 0 (from 4 to 4)";
                "  Output file: in.json"] ∧
  stderr r.2 = [] ∧
  files r.2 !! "in.json" = Some (Sample.Rendered (JObj Sample.dict_A) None).
Proof. by vm_compute. Qed.

(** Scenario C: ["x,2"] is refused. *)
Example scenario_C :
  let r := Sample.run (Namespace "in.json" "x,2" None false) Sample.world_A in
  exit_status r.1 = 1 ∧ stdout r.2 = [] ∧
  stderr r.2 = ["Error: Category IDs must be integers separated by commas"] ∧
  files r.2 = files Sample.world_A ∧ trace r.2 = [].
Proof. by vm_compute. Qed.

(** Scenario E: a document without ['annotations']. *)
Example scenario_E :
  let r := Sample.run (Namespace "bad.json" "1" None false) Sample.world_A in
  exit_status r.1 = 1 ∧ stdout r.2 = [] ∧
  stderr r.2 = ["Error: 'annotations' field not found in annotation file"] ∧
  files r.2 = files Sample.world_A ∧ trace r.2 = [JsonLoad "bad.json"].
Proof. by vm_compute. Qed.

(** With [--verbose], a removed category without a [name] stops the
    listing with an error, after the file has been written. *)
Example verbose_without_name :
  let nameless := JObj [("categories", JArr [JObj [("id", JInt 4)]]);
                        ("annotations", JArr [])] in
  let w := World {[ "n.json" := Sample.Rendered nameless None ]} [] [] [] in
  let r := Sample.run (Namespace "n.json" "4" None true) w in
  exit_status r.1 = 1 ∧ stderr r.2 = ["Error: 'name'"] ∧
  trace r.2 = [JsonLoad "n.json";
               JsonDump "n.json" (JObj [("categories", JArr []);
                                        ("annotations", JArr [])]) None].
Proof. by vm_compute. Qed.

(** Ids that are not integers: [True] counts as 1, a list cannot be
    tested. *)
Example boolean_id_is_an_integer :
  removes "id" {[ 1 ]} (JObj [("id", JBool true)]).
Proof. by vm_compute. Qed.

Example list_id_raises :
  field_in "id" {[ 1 ]} (JObj [("id", JArr [])])
  = Err (TypeError "unhashable type: list").
Proof. reflexivity. Qed.

(** An empty dictionary for ['categories'] passes for an empty list. *)
Example empty_dictionary_of_categories :
  f_data <$> filter_document
               (JObj [("categories", JObj []); ("annotations", JArr [])]) [1]
  = Ok (JObj [("categories", JArr []); ("annotations", JArr [])]).
Proof. reflexivity. Qed.

(** ** Instances on the sample document *)

Lemma document_A :
  document Sample.dict_A Sample.categories_A Sample.annotations_A.
Proof.
  split; [reflexivity|]. split; [reflexivity|].
  split; repeat constructor; by eexists.
Qed.

Lemma world_A_input :
  files Sample.world_A !! "in.json"
  = Some (Sample.Rendered (JObj Sample.dict_A) None).
Proof. by vm_compute. Qed.

Lemma categories_filtered_witness :
  ∃ st w' d' ind,
    Sample.clean "in.json" [0; 39] (Some "out.json") Sample.world_A
    = (Ok st, w') ∧
    dumped Sample.json_dump w' (output_file st) (JObj d') ind ∧
    Dict.get "categories" d' = Some (JArr [Sample.category 1 "b"]).
Proof.
  destruct (categories_filtered Sample.json_load Sample.json_dump
              Sample.write_error Sample.world_A "in.json" [0; 39]
              (Some "out.json") _ _ _ _
              world_A_input eq_refl document_A eq_refl)
    as (st & w' & d' & ind & cats' & Hrun & Hdump & Hget & -> & _).
  exists st, w', d', ind.
  split; [exact Hrun|]. split; [exact Hdump | exact Hget].
Defined.

Lemma annotations_filtered_witness :
  ∃ st w' d' ind,
    Sample.clean "in.json" [0; 39] (Some "out.json") Sample.world_A
    = (Ok st, w') ∧
    dumped Sample.json_dump w' (output_file st) (JObj d') ind ∧
    Dict.get "annotations" d'
    = Some (JArr [Sample.annotation 11 1; Sample.annotation 13 1]).
Proof.
  destruct (annotations_filtered Sample.json_load Sample.json_dump
              Sample.write_error Sample.world_A "in.json" [0; 39]
              (Some "out.json") _ _ _ _
              world_A_input eq_refl document_A eq_refl)
    as (st & w' & d' & ind & anns' & Hrun & Hdump & Hget & -> & _).
  exists st, w', d', ind.
  split; [exact Hrun|]. split; [exact Hdump | exact Hget].
Defined.

Lemma world_A_malformed :
  files Sample.world_A !! "bad.json"
  = Some (Sample.Rendered (JObj Sample.dict_E) None).
Proof. by vm_compute. Qed.

Lemma dict_E_lacks_annotations : "annotations" ∉ Dict.keys Sample.dict_E.
Proof. by apply (bool_decide_unpack _). Qed.

Lemma missing_field_fails_before_writing_witness :
  ∃ e w',
    Sample.clean "bad.json" [0; 39] None Sample.world_A = (Err e, w') ∧
    (e = missing_categories ∨ e = missing_annotations) ∧
    files w' = files Sample.world_A ∧
    trace w' = (trace Sample.world_A ++ [JsonLoad "bad.json"])%list ∧
    stdout w' = stdout Sample.world_A ∧ stderr w' = stderr Sample.world_A.
Proof.
  exact (missing_field_fails_before_writing Sample.json_load Sample.json_dump
           Sample.write_error Sample.world_A "bad.json" [0; 39] None _ _
           world_A_malformed eq_refl (or_intror dict_E_lacks_annotations)).
Defined.

Lemma other_keys_and_records_unchanged_witness :
  ∃ st w' d' ind cats' anns',
    Sample.clean "in.json" [0; 39] None Sample.world_A = (Ok st, w') ∧
    dumped Sample.json_dump w' (output_file st) (JObj d') ind ∧
    Dict.keys d' = Dict.keys Sample.dict_A ∧
    (∀ k, k ≠ "categories" → k ≠ "annotations" →
          Dict.get k d' = Dict.get k Sample.dict_A) ∧
    Dict.get "categories" d' = Some (JArr cats') ∧
    Dict.get "annotations" d' = Some (JArr anns') ∧
    cats' `sublist_of` Sample.categories_A ∧
    anns' `sublist_of` Sample.annotations_A ∧
    (∀ c, c ∈ cats' → c ∈ Sample.categories_A) ∧
    (∀ a, a ∈ anns' → a ∈ Sample.annotations_A).
Proof.
  exact (other_keys_and_records_unchanged Sample.json_load Sample.json_dump
           Sample.write_error Sample.world_A "in.json" [0; 39] None _ _ _ _
           world_A_input eq_refl document_A eq_refl).
Defined.

Lemma nothing_to_remove_A :
  Forall (λ c, ¬ removes "id" (list_to_set [5]) c) Sample.categories_A ∧
  Forall (λ a, ¬ removes "category_id" (list_to_set [5]) a)
    Sample.annotations_A.
Proof. split; by apply (bool_decide_unpack _). Qed.

Lemma disjoint_set_changes_nothing_witness :
  ∃ st w' ind,
    Sample.clean "in.json" [5] (Some "out.json") Sample.world_A
    = (Ok st, w') ∧
    dumped Sample.json_dump w' (output_file st) (JObj Sample.dict_A) ind ∧
    Dict.get "categories" Sample.dict_A = Some (JArr Sample.categories_A) ∧
    Dict.get "annotations" Sample.dict_A = Some (JArr Sample.annotations_A).
Proof.
  exact (disjoint_set_changes_nothing Sample.json_load Sample.json_dump
           Sample.write_error Sample.world_A "in.json" [5]
           (Some "out.json") _ _ _ _
           world_A_input eq_refl document_A eq_refl
           (proj1 nothing_to_remove_A) (proj2 nothing_to_remove_A)).
Defined.

Lemma statistics_report_witness :
  ∃ st w' d' ind cats' anns',
    Sample.clean "in.json" [0; 39] (Some "out.json") Sample.world_A
    = (Ok st, w') ∧
    dumped Sample.json_dump w' (output_file st) (JObj d') ind ∧
    Dict.get "categories" d' = Some (JArr cats') ∧
    Dict.get "annotations" d' = Some (JArr anns') ∧
    categories_removed st
    = removed "id" (list_to_set [0; 39]) Sample.categories_A ∧
    categories_removed_count st = length (categories_removed st) ∧
    annotations_removed_count st
    = length (removed "category_id" (list_to_set [0; 39])
                Sample.annotations_A) ∧
    original_categories_count st = length Sample.categories_A ∧
    original_annotations_count st = length Sample.annotations_A ∧
    final_categories_count st = length cats' ∧
    final_annotations_count st = length anns' ∧
    output_file st = "out.json".
Proof.
  exact (statistics_report Sample.json_load Sample.json_dump
           Sample.write_error Sample.world_A "in.json" [0; 39]
           (Some "out.json") _ _ _ _
           world_A_input eq_refl document_A eq_refl).
Defined.

Lemma indent_iff_distinct_output_witness :
  (∃ st w' d' ind,
     Sample.clean "in.json" [0; 39] (Some "out.json") Sample.world_A
     = (Ok st, w') ∧
     dumped Sample.json_dump w' (output_file st) (JObj d') ind ∧
     output_file st = "out.json" ∧
     (ind = Some 2%nat ↔ output_file st ≠ "in.json") ∧
     (ind = None ↔ output_file st = "in.json") ∧
     (Some "out.json" = None ∨ Some "out.json" = Some "in.json" → ind = None)) ∧
  (∃ st w' d' ind,
     Sample.clean "in.json" [0; 39] None Sample.world_A = (Ok st, w') ∧
     dumped Sample.json_dump w' (output_file st) (JObj d') ind ∧
     output_file st = "in.json" ∧
     (ind = Some 2%nat ↔ output_file st ≠ "in.json") ∧
     (ind = None ↔ output_file st = "in.json") ∧
     (@None string = None ∨ None = Some "in.json" → ind = None)).
Proof.
  split.
  - exact (indent_iff_distinct_output Sample.json_load Sample.json_dump
             Sample.write_error Sample.world_A "in.json" [0; 39]
             (Some "out.json") _ _ _ _
             world_A_input eq_refl document_A eq_refl).
  - exact (indent_iff_distinct_output Sample.json_load Sample.json_dump
             Sample.write_error Sample.world_A "in.json" [0; 39] None _ _ _ _
             world_A_input eq_refl document_A eq_refl).
Defined.

Lemma statistics_add_up_witness :
  ∃ st w' d' ind cats',
    Sample.clean "in.json" [0; 39] (Some "out.json") Sample.world_A
    = (Ok st, w') ∧
    dumped Sample.json_dump w' (output_file st) (JObj d') ind ∧
    Dict.get "categories" d' = Some (JArr cats') ∧
    (final_categories_count st
     = original_categories_count st - categories_removed_count st)%nat ∧
    (final_annotations_count st
     = original_annotations_count st - annotations_removed_count st)%nat ∧
    (original_categories_count st
     = final_categories_count st + categories_removed_count st)%nat ∧
    (original_annotations_count st
     = final_annotations_count st + annotations_removed_count st)%nat ∧
    Sample.categories_A ≡ₚ cats' ++ categories_removed st.
Proof.
  exact (statistics_add_up Sample.json_load Sample.json_dump
           Sample.write_error Sample.world_A "in.json" [0; 39]
           (Some "out.json") _ _ _ _
           world_A_input eq_refl document_A eq_refl).
Defined.

Lemma second_run_removes_nothing_witness :
  ∃ st1 w1 st2 w2,
    Sample.clean "in.json" [0; 39] (Some "out.json") Sample.world_A
    = (Ok st1, w1) ∧
    Sample.clean (output_file st1) [0; 39] None w1 = (Ok st2, w2) ∧
    categories_removed_count st2 = 0%nat ∧
    annotations_removed_count st2 = 0%nat ∧
    categories_removed st2 = [] ∧
    final_categories_count st2 = final_categories_count st1 ∧
    final_annotations_count st2 = final_annotations_count st1.
Proof.
  exact (second_run_removes_nothing Sample.json_load Sample.json_dump
           Sample.write_error Sample.world_A "in.json" [0; 39]
           (Some "out.json") _ _ _ _
           world_A_input eq_refl document_A eq_refl
           None (λ _, eq_refl) eq_refl).
Defined.

Lemma not_an_integer : py_int (strip "x") = None.
Proof. reflexivity. Qed.

Lemma seven_bit_x : seven_bit "x".
Proof. by apply (bool_decide_unpack _). Qed.

Lemma main_rejects_bad_arguments_witness :
  (∃ msg w',
     Sample.run (Namespace "in.json" "x,2" None false) Sample.world_A
     = (Err (SystemExit 1), w') ∧
     exit_status
       (Sample.run (Namespace "in.json" "x,2" None false) Sample.world_A).1
     = 1 ∧
     stderr w' = (stderr Sample.world_A ++ [msg])%list ∧ single_line msg ∧
     stdout w' = stdout Sample.world_A ∧ files w' = files Sample.world_A ∧
     trace w' = trace Sample.world_A) ∧
  (∃ w',
     Sample.run (Namespace "none.json" "0,39" None false) Sample.world_A
     = (Err (SystemExit 1), w') ∧
     exit_status
       (Sample.run (Namespace "none.json" "0,39" None false) Sample.world_A).1
     = 1 ∧
     files w' = files Sample.world_A ∧ trace w' = trace Sample.world_A).
Proof.
  split.
  - apply (proj1 (main_rejects_bad_arguments Sample.json_load
                    Sample.json_dump Sample.write_error Sample.py_repr
                    (Namespace "in.json" "x,2" None false) Sample.world_A)).
    left. exists "x". split; [apply list_elem_of_here|].
    split; [apply seven_bit_x | apply not_an_integer].
  - apply (proj2 (main_rejects_bad_arguments Sample.json_load
                    Sample.json_dump Sample.write_error Sample.py_repr
                    (Namespace "none.json" "0,39" None false) Sample.world_A)).
    by vm_compute.
Defined.


(** * Further properties *)

(** ** Exceptions of the built-in operations *)

(** None of the operations on loaded values raises [SystemExit]. *)
Lemma py_contains_ordinary key v e : py_contains key v = Err e → ordinary e.
Proof. destruct v; simpl; intros; by simplify_eq. Qed.

Lemma getitem_ordinary v key e : getitem v key = Err e → ordinary e.
Proof.
  destruct v; simpl; try (intros; by simplify_eq).
  destruct (Dict.get key fields); intros; by simplify_eq.
Qed.

Lemma setitem_ordinary v key x e : setitem v key x = Err e → ordinary e.
Proof. destruct v; simpl; intros; by simplify_eq. Qed.

Lemma py_len_ordinary v e : py_len v = Err e → ordinary e.
Proof. destruct v; simpl; intros; by simplify_eq. Qed.

Lemma py_copy_ordinary v e : py_copy v = Err e → ordinary e.
Proof. destruct v; simpl; intros; by simplify_eq. Qed.

Lemma py_iter_ordinary v e : py_iter v = Err e → ordinary e.
Proof. destruct v; simpl; intros; by simplify_eq. Qed.

Lemma in_set_ordinary v S e : in_set v S = Err e → ordinary e.
Proof. destruct v; simpl; intros; by simplify_eq. Qed.

Lemma py_get_ordinary v key dflt e : py_get v key dflt = Err e → ordinary e.
Proof. destruct v; simpl; intros; by simplify_eq. Qed.

Lemma field_in_ordinary key S r e : field_in key S r = Err e → ordinary e.
Proof.
  unfold field_in, mbind, res_bind.
  destruct (getitem r key) eqn:Hget.
  - apply in_set_ordinary.
  - intros [= <-]. by eapply getitem_ordinary.
Qed.

Lemma field_not_in_ordinary key S r e :
  field_not_in key S r = Err e → ordinary e.
Proof.
  unfold field_not_in, fmap, res_fmap.
  destruct (field_in key S r) eqn:Hin; [done|].
  intros [= <-]. by eapply field_in_ordinary.
Qed.

Lemma comprehension_ordinary test xs e :
  (∀ x e', test x = Err e' → ordinary e') →
  comprehension test xs = Err e → ordinary e.
Proof.
  intros Htest. induction xs as [|x xs IH]; simpl; [done|].
  unfold mbind, res_bind. destruct (test x) eqn:Hx.
  - destruct (comprehension test xs); [done|].
    intros [= <-]. by apply IH.
  - intros [= <-]. by eapply Htest.
Qed.

(** The first record the test fails on decides the exception of a
    comprehension. *)
Lemma comprehension_first_error test good bad rest e :
  Forall (λ x, ∃ b, test x = Ok b) good → test bad = Err e →
  comprehension test (good ++ bad :: rest) = Err e.
Proof.
  intros Hgood Hbad. induction Hgood as [|x good [b Hx] _ IH]; simpl.
  - by rewrite Hbad.
  - by rewrite Hx, IH.
Qed.

Ltac bind_err H close :=
  match type of H with
  | match ?m with Ok _ => _ | Err _ => _ end = Err _ =>
      let E := fresh "E" in
      destruct m eqn:E; [|injection H as <-; close]
  | (if ?b then _ else _) = Err _ =>
      let E := fresh "E" in
      destruct b eqn:E; [injection H as <-; exact I|]
  end.

Lemma filter_document_ordinary data ids e :
  filter_document data ids = Err e → ordinary e.
Proof.
  unfold filter_document, mbind, res_bind. intros H.
  repeat bind_err H
    ltac:(by eauto using py_contains_ordinary, getitem_ordinary,
            setitem_ordinary, py_len_ordinary, py_copy_ordinary,
            py_iter_ordinary, comprehension_ordinary,
            field_in_ordinary, field_not_in_ordinary).
  done.
Qed.

(** What the two passes leave is a dictionary with two lists. *)
Lemma filter_document_Ok_data data ids f :
  filter_document data ids = Ok f →
  ∃ d kept_categories kept_annotations,
    f_data f = JObj d ∧
    Dict.get "categories" d = Some (JArr kept_categories) ∧
    Dict.get "annotations" d = Some (JArr kept_annotations).
Proof.
  unfold filter_document, mbind, res_bind. intros H.
  do 4 bind_inv H.
  destruct data as [| | | | |l|d]; simpl in *; try discriminate.
  repeat bind_inv H. injection H as <-. simpl.
  eexists _, _, _. split; [reflexivity|]. split.
  - rewrite DictFacts.get_set_ne by done. apply DictFacts.get_set_eq.
  - apply DictFacts.get_set_eq.
Qed.

(** ** The ways [clean_coco_annotations] ends *)

Section clean_outcomes.

Context {text : Type}.
Context (json_load : text → string + json).
Context (json_dump : json → option nat → text).
Context (write_error : string → option string).
#[local] Abbreviation clean :=
  (clean_coco_annotations json_load json_dump write_error).

Context (w : world text) (path : string) (ids : list Z) (out : option string).

(** X3: on a document of the data model, when the output file cannot
    be opened for writing, with error [msg], the function raises
    [IOError] with the message ["Failed to write output file: " + msg];
    no file changes and nothing is dumped. *)
Theorem clean_write_failure t d cats anns msg :
  files w !! path = Some t → json_load t = inr (JObj d) →
  document d cats anns →
  write_error (default path out) = Some msg →
  clean path ids out w
  = (Err (IOError ("Failed to write output file: " +:+ msg)),
     log (JsonLoad path) w).
Proof.
  intros Hfile Hload Hdoc Hwrite.
  unfold clean_coco_annotations, mbind, M_bind, load, lift, save.
  rewrite Hfile, Hload, (filter_document_document d cats anns ids Hdoc).
  cbn [f_data]. by rewrite Hwrite.
Qed.

(** X5: when the function succeeds it has loaded the input and then
    dumped one value into the resolved output path (the output path, or
    the input path when none was given), and done nothing else: the
    file at that path holds the dump, nothing was printed, and the
    statistics report that path. *)
Theorem clean_success_effects w' st :
  clean path ids out w = (Ok st, w') →
  output_file st = default path out ∧
  stdout w' = stdout w ∧ stderr w' = stderr w ∧
  ∃ data ind,
    trace w' = (trace w ++ [JsonLoad path;
                            JsonDump (default path out) data ind])%list ∧
    files w' !! default path out = Some (json_dump data ind).
Proof.
  unfold clean_coco_annotations, mbind, M_bind, load, lift, save.
  destruct (files w !! path) as [t|]; [|done].
  destruct (json_load t) as [msg|data]; [done|].
  destruct (filter_document data ids) as [f|e'] eqn:Hf; [|done].
  destruct (write_error (default path out)); [done|].
  destruct (filter_document_Ok_data _ _ _ Hf) as (d & kc & ka & Hd & Hc & Ha).
  rewrite Hd. cbn [getitem]. rewrite Hc, Ha. simpl.
  intros [= <- <-]. simpl. split; [done|]. split; [done|]. split; [done|].
  eexists _, _. split; [by rewrite <- (assoc_L (++))|].
  apply lookup_insert_eq.
Qed.

(** X6: when a category has no [id] and the categories before it can
    be tested, the function raises [KeyError] for ['id'], whatever the
    later categories and the annotations are; nothing is written. *)
Theorem clean_category_without_id t d good fields rest annotations n :
  files w !! path = Some t → json_load t = inr (JObj d) →
  Dict.get "categories" d = Some (JArr (good ++ JObj fields :: rest)) →
  Dict.get "annotations" d = Some annotations →
  py_len annotations = Ok n →
  Forall (testable "id") good →
  Dict.get "id" fields = None →
  clean path ids out w = (Err (KeyError "id"), log (JsonLoad path) w).
Proof.
  intros Hfile Hload Hc Ha Hlen Hgood Hid.
  unfold clean_coco_annotations, mbind, M_bind, load, lift.
  rewrite Hfile, Hload.
  unfold filter_document. simpl.
  rewrite !bool_decide_eq_true_2 by eauto using DictFacts.get_Some_key.
  simpl. rewrite Hc, Ha. simpl. rewrite Hlen. simpl.
  rewrite (comprehension_first_error (field_not_in "id" (list_to_set ids))
             good (JObj fields) rest (KeyError "id")).
  - done.
  - eapply Forall_impl; [exact Hgood|]. intros r Hr.
    rewrite (field_not_in_testable _ _ r Hr). eauto.
  - unfold field_not_in, field_in. simpl. by rewrite Hid.
Qed.

(** X7: when the categories can all be tested, and an annotation has
    no [category_id] while the annotations before it can be tested, the
    function raises [KeyError] for ['category_id']; the categories
    already filtered in memory are not written. *)
Theorem clean_annotation_without_category_id t d cats good fields rest :
  files w !! path = Some t → json_load t = inr (JObj d) →
  Dict.get "categories" d = Some (JArr cats) →
  Dict.get "annotations" d = Some (JArr (good ++ JObj fields :: rest)) →
  Forall (testable "id") cats →
  Forall (testable "category_id") good →
  Dict.get "category_id" fields = None →
  clean path ids out w
  = (Err (KeyError "category_id"), log (JsonLoad path) w).
Proof.
  intros Hfile Hload Hc Ha Hcats Hgood Hid.
  unfold clean_coco_annotations, mbind, M_bind, load, lift.
  rewrite Hfile, Hload.
  unfold filter_document. simpl.
  rewrite !bool_decide_eq_true_2 by eauto using DictFacts.get_Some_key.
  simpl. rewrite Hc, Ha. simpl.
  rewrite (kept_filter "id" _ cats Hcats). simpl.
  rewrite (removed_filter "id" _ cats Hcats). simpl.
  rewrite DictFacts.get_set_ne, Ha by done. simpl.
  rewrite (comprehension_first_error
             (field_not_in "category_id" (list_to_set ids))
             good (JObj fields) rest (KeyError "category_id")).
  - done.
  - eapply Forall_impl; [exact Hgood|]. intros r Hr.
    rewrite (field_not_in_testable _ _ r Hr). eauto.
  - unfold field_not_in, field_in. simpl. by rewrite Hid.
Qed.

(** X8: a file whose content loads as anything but a dictionary (a
    list, a string, a number, ...) is refused with an exception, and
    nothing is written. *)
Theorem clean_rejects_non_dictionary t data :
  files w !! path = Some t → json_load t = inr data →
  (∀ d, data ≠ JObj d) →
  ∃ e, clean path ids out w = (Err e, log (JsonLoad path) w) ∧ ordinary e.
Proof.
  intros Hfile Hload Hdata.
  unfold clean_coco_annotations, mbind, M_bind, load, lift.
  rewrite Hfile, Hload.
  destruct (filter_document data ids) as [f|e] eqn:Hf.
  - destruct (filter_document_Ok_inv _ _ _ Hf) as (d & ? & ? & -> & _).
    by destruct (Hdata d).
  - exists e. split; [done|]. by eapply filter_document_ordinary.
Qed.

End clean_outcomes.

(** ** Two runs in a row *)

Lemma dict_set_set k v1 v2 d :
  Dict.set k v2 (Dict.set k v1 d) = Dict.set k v2 d.
Proof.
  induction d as [|[k' v'] d IH]; simpl.
  - by rewrite decide_True.
  - destruct (decide (k' = k)) as [->|Hne]; simpl.
    + by rewrite decide_True.
    + by rewrite decide_False, IH.
Qed.

(** Assignments to two different keys commute once one of them is
    present (two new keys would be appended in the order assigned). *)
Lemma dict_set_commute k1 k2 v1 v2 d :
  k1 ≠ k2 → k1 ∈ Dict.keys d →
  Dict.set k1 v1 (Dict.set k2 v2 d) = Dict.set k2 v2 (Dict.set k1 v1 d).
Proof.
  intros Hne. unfold Dict.keys.
  induction d as [|[k v] d IH]; simpl; [by intros ?%elem_of_nil|].
  intros Hin. destruct (decide (k = k2)) as [->|Hk2]; simpl.
  - rewrite !decide_False by done. simpl. by rewrite decide_True.
  - destruct (decide (k = k1)) as [->|Hk1]; simpl.
    + by rewrite decide_False.
    + rewrite decide_False by done. f_equal. apply IH.
      apply elem_of_cons in Hin as [->|Hin]; done.
Qed.

Lemma in_set_union v S1 S2 :
  in_set v (S1 ∪ S2) = Ok true ↔ in_set v S1 = Ok true ∨ in_set v S2 = Ok true.
Proof.
  assert (∀ P `{Decision P}, Ok (bool_decide P) = Ok true ↔ P) as Hok.
  { intros P ?. split; [intros [= ?%bool_decide_eq_true]; done|].
    intros HP. by rewrite bool_decide_eq_true_2. }
  destruct v; simpl; try (rewrite !Hok, elem_of_union; tauto);
    try (split; [done | by intros [?|?]]).
  destruct (float_integer f);
    [rewrite !Hok, elem_of_union; tauto | split; [done | by intros [?|?]]].
Qed.

(** A record is removed by the union of two sets when one of them
    removes it. *)
Lemma removes_union key S1 S2 r :
  removes key (S1 ∪ S2) r ↔ removes key S1 r ∨ removes key S2 r.
Proof.
  unfold removes, field_in, mbind, res_bind.
  destruct (getitem r key); [apply in_set_union|].
  split; [done | by intros [?|?]].
Qed.

Lemma kept_union key S1 S2 xs :
  kept key S2 (kept key S1 xs) = kept key (S1 ∪ S2) xs.
Proof.
  unfold kept. rewrite list_filter_filter. apply list_filter_iff.
  intros r. rewrite removes_union. tauto.
Qed.

Lemma cleaned_union S1 S2 d cats anns :
  document d cats anns →
  cleaned S2 (cleaned S1 d cats anns) (kept "id" S1 cats)
    (kept "category_id" S1 anns)
  = cleaned (S1 ∪ S2) d cats anns.
Proof.
  intros (Hc & Ha & _). unfold cleaned. rewrite !kept_union.
  rewrite (dict_set_commute "categories" "annotations") by
    (rewrite ?DictFacts.keys_set_present; eauto using DictFacts.get_Some_key).
  by rewrite dict_set_set, dict_set_set.
Qed.

(** Give names to the statistics and the world of an outcome. *)
Ltac name_outcome H st w :=
  match type of H with
  | _ = (Ok ?s, ?v) => set (st := s) in *; set (w := v) in *
  end.

Section two_runs.

Context {text : Type}.
Context (json_load : text → string + json).
Context (json_dump : json → option nat → text).
Context (write_error : string → option string).
#[local] Abbreviation clean :=
  (clean_coco_annotations json_load json_dump write_error).

Context (w : world text) (path : string) (out : option string).
Context (t : text) (d : list (string * json)) (cats anns : list json).

(** X9: cleaning with [ids1] and then cleaning the written file with
    [ids2] dumps the document that one run with both lists of ids
    dumps, and reports the same final counts.  The file written by the
    first run must load as the document dumped into it, and the targets
    must be writable. *)
Theorem two_runs_compose (ids1 ids2 : list Z) (out2 : option string) :
  files w !! path = Some t → json_load t = inr (JObj d) →
  document d cats anns →
  write_error (default path out) = None →
  (∀ ind, json_load (json_dump
                       (JObj (cleaned (list_to_set ids1) d cats anns)) ind)
          = inr (JObj (cleaned (list_to_set ids1) d cats anns))) →
  write_error (default (default path out) out2) = None →
  ∃ st1 w1 st2 w2 st12 w12 data ind2 ind12,
    clean path ids1 out w = (Ok st1, w1) ∧
    clean (output_file st1) ids2 out2 w1 = (Ok st2, w2) ∧
    clean path (ids1 ++ ids2) out w = (Ok st12, w12) ∧
    dumped json_dump w2 (output_file st2) data ind2 ∧
    dumped json_dump w12 (output_file st12) data ind12 ∧
    final_categories_count st2 = final_categories_count st12 ∧
    final_annotations_count st2 = final_annotations_count st12.
Proof.
  intros Hfile Hload Hdoc Hwrite Hcodec Hwrite2.
  pose proof (clean_run json_load json_dump write_error w path ids1 out
                t d cats anns Hfile Hload Hdoc Hwrite) as Hrun1.
  pose proof (clean_run_dumped json_load json_dump write_error w path ids1
                out t d cats anns Hfile Hload Hdoc Hwrite _ _ Hrun1)
    as [_ Hfile1].
  name_outcome Hrun1 st1 w1.
  change (output_file st1) with (default path out) in Hfile1.
  pose proof (cleaned_document _ _ _ ids1 Hdoc) as Hdoc1.
  pose proof (clean_run json_load json_dump write_error w1 (default path out)
                ids2 out2 _ _ _ _ Hfile1 (Hcodec _) Hdoc1 Hwrite2) as Hrun2.
  pose proof (clean_run_dumped json_load json_dump write_error w1
                (default path out) ids2 out2 _ _ _ _ Hfile1 (Hcodec _)
                Hdoc1 Hwrite2 _ _ Hrun2) as Hdump2.
  name_outcome Hrun2 st2 w2.
  pose proof (clean_run json_load json_dump write_error w path
                (ids1 ++ ids2) out t d cats anns Hfile Hload Hdoc Hwrite)
    as Hrun12.
  pose proof (clean_run_dumped json_load json_dump write_error w path
                (ids1 ++ ids2) out t d cats anns Hfile Hload Hdoc Hwrite
                _ _ Hrun12) as Hdump12.
  name_outcome Hrun12 st12 w12.
  rewrite cleaned_union in Hdump2 by done.
  rewrite list_to_set_app_L in Hdump12.
  exists st1, w1, st2, w2, st12, w12. eexists _, _, _.
  split; [exact Hrun1|]. split; [exact Hrun2|]. split; [exact Hrun12|].
  split; [exact Hdump2|]. split; [exact Hdump12|].
  subst st2 st12. simpl. by rewrite !kept_union, list_to_set_app_L.
Qed.

End two_runs.

(** ** The ways [main] ends *)

Lemma category_line_ordinary py_repr cat e :
  category_line py_repr cat = Err e → ordinary e.
Proof.
  unfold category_line, mbind, res_bind. intros H.
  repeat bind_err H
    ltac:(by eauto using getitem_ordinary, py_get_ordinary).
  done.
Qed.

Section main_outcomes.

Context {text : Type}.
Context (json_load : text → string + json).
Context (json_dump : json → option nat → text).
Context (write_error : string → option string).
Context (py_repr : json → string).
#[local] Abbreviation clean :=
  (clean_coco_annotations json_load json_dump write_error).
#[local] Abbreviation run :=
  (main json_load json_dump write_error py_repr).
#[local] Abbreviation line_of := (category_line py_repr).

(** What a successful run leaves, and what a failed one does. *)
Lemma clean_Ok_world (w w' : world text) path ids out st :
  clean path ids out w = (Ok st, w') →
  stdout w' = stdout w ∧ stderr w' = stderr w.
Proof.
  unfold clean_coco_annotations, mbind, M_bind, load, lift, save.
  destruct (files w !! path) as [t|]; [|done].
  destruct (json_load t) as [msg|data]; [done|].
  destruct (filter_document data ids) as [f|e'] eqn:Hf; [|done].
  destruct (write_error (default path out)); [done|].
  destruct (filter_document_Ok_data _ _ _ Hf) as (d & kc & ka & Hd & Hc & Ha).
  rewrite Hd. cbn [getitem]. rewrite Hc, Ha. simpl.
  by intros [= <- <-].
Qed.

Lemma clean_Err_world (w w' : world text) path ids out e :
  clean path ids out w = (Err e, w') →
  ordinary e ∧ files w' = files w ∧
  stdout w' = stdout w ∧ stderr w' = stderr w.
Proof.
  unfold clean_coco_annotations, mbind, M_bind, load, lift, save.
  destruct (files w !! path) as [t|].
  2: { intros [= <- <-]. by split. }
  destruct (json_load t) as [msg|data].
  { intros [= <- <-]. by split. }
  destruct (filter_document data ids) as [f|e'] eqn:Hf.
  2: { intros [= <- <-]. split; [by eapply filter_document_ordinary|done]. }
  destruct (write_error (default path out)).
  { intros [= <- <-]. by split. }
  destruct (filter_document_Ok_data _ _ _ Hf) as (d & kc & ka & Hd & Hc & Ha).
  rewrite Hd. cbn [getitem]. rewrite Hc, Ha. simpl. discriminate.
Qed.

(** The listing prints the lines of the categories, in order. *)
Lemma print_removed_lines cats lines (w : world text) :
  Forall2 (λ c l, line_of c = Ok l) cats lines →
  print_removed py_repr cats w
  = (Ok (), World (files w) (stdout w ++ lines)%list (stderr w) (trace w)).
Proof.
  intros Hlines. revert w.
  induction Hlines as [|c l cats lines Hl _ IH]; intros w; simpl.
  - rewrite app_nil_r. by destruct w.
  - unfold category_line, mbind, res_bind in Hl.
    unfold mbind, M_bind, lift, print.
    destruct (getitem c "id"); [|done].
    destruct (getitem c "name"); [|done].
    destruct (py_get c "supercategory" (JStr "none")); [|done].
    injection Hl as <-. rewrite IH. simpl. by rewrite <- (assoc_L (++)).
Qed.

(** The listing stops at the first category whose line cannot be
    made, with the exception of that line. *)
Lemma print_removed_stops good lines bad rest e (w : world text) :
  Forall2 (λ c l, line_of c = Ok l) good lines →
  line_of bad = Err e →
  print_removed py_repr (good ++ bad :: rest)%list w
  = (Err e, World (files w) (stdout w ++ lines)%list (stderr w) (trace w)).
Proof.
  intros Hlines Hbad. revert w.
  induction Hlines as [|c l cats lines Hl _ IH]; intros w; simpl.
  - rewrite app_nil_r. unfold category_line, mbind, res_bind in Hbad.
    unfold mbind, M_bind, lift, print.
    destruct (getitem bad "id"); [|injection Hbad as <-; by destruct w].
    destruct (getitem bad "name"); [|injection Hbad as <-; by destruct w].
    destruct (py_get bad "supercategory" (JStr "none"));
      [done | injection Hbad as <-; by destruct w].
  - unfold category_line, mbind, res_bind in Hl.
    unfold mbind, M_bind, lift, print.
    destruct (getitem c "id"); [|done].
    destruct (getitem c "name"); [|done].
    destruct (py_get c "supercategory" (JStr "none")); [|done].
    injection Hl as <-. rewrite IH. simpl. by rewrite <- (assoc_L (++)).
Qed.

(** Every category has a line or an exception, so the listing ends in
    one of the two ways above. *)
Lemma listing_cases cats :
  (∃ lines, Forall2 (λ c l, line_of c = Ok l) cats lines) ∨
  (∃ good lines bad rest e,
     cats = (good ++ bad :: rest)%list ∧
     Forall2 (λ c l, line_of c = Ok l) good lines ∧ line_of bad = Err e).
Proof.
  induction cats as [|c cats IH].
  - left. exists []. constructor.
  - destruct (line_of c) as [l|e] eqn:Hc.
    + destruct IH as [[lines Hlines]|(good & lines & bad & rest & e & -> & ? & ?)].
      * left. exists (l :: lines). by constructor.
      * right. exists (c :: good), (l :: lines), bad, rest, e.
        split; [done|]. split; [by constructor | done].
    + right. exists [], [], c, cats, e. split; [done|].
      split; [constructor | done].
Qed.

(** [main] up to the call: with ids that parse and a file that is
    there, what is left is the [try] statement. *)
Ltac main_to_try Hparse Hfile :=
  unfold main, mbind, M_bind, mret, M_ret; rewrite Hparse;
  (let Hnil := fresh "Hnil" in
   case_bool_decide as Hnil;
     [subst; by apply parse_category_ids_not_nil in Hparse|]);
  unfold path_exists;
  (let Hthere := fresh "Hthere" in
   case_bool_decide as Hthere; [|by destruct Hthere]);
  unfold try_except, mbind, M_bind, mret, M_ret;
  cbv beta iota delta [negb].

Lemma clean_Ok_file_there (w w1 : world text) path ids out st :
  clean path ids out w = (Ok st, w1) → is_Some (files w !! path).
Proof.
  intros (t & ? & ? & ? & Hfile & _)%clean_Ok_inv. by exists t.
Qed.

Lemma main_quiet args (w w1 : world text) ids st :
  parse_category_ids (category_ids args) = Some ids →
  clean (annotation_file args) ids (arg_output_file args) w = (Ok st, w1) →
  verbose args = false ∨ categories_removed st = [] →
  run args w
  = (Ok (), World (files w1) (stdout w ++ summary st)%list (stderr w)
              (trace w1)).
Proof.
  intros Hparse Hclean Hquiet.
  pose proof (clean_Ok_file_there _ _ _ _ _ _ Hclean) as Hfile.
  destruct (clean_Ok_world _ _ _ _ _ _ Hclean) as [Hout Herr].
  main_to_try Hparse Hfile. rewrite Hclean. unfold print. simpl.
  rewrite Hout, Herr, <- !(assoc_L (++)). simpl.
  destruct Hquiet as [-> | ->]; [done|]. by rewrite andb_false_r.
Qed.

Lemma main_listing args (w w1 : world text) ids st lines :
  parse_category_ids (category_ids args) = Some ids →
  clean (annotation_file args) ids (arg_output_file args) w = (Ok st, w1) →
  verbose args = true →
  categories_removed st ≠ [] →
  Forall2 (λ c l, line_of c = Ok l) (categories_removed st) lines →
  run args w
  = (Ok (), World (files w1)
              (stdout w ++ summary st ++ removed_heading :: lines)%list
              (stderr w) (trace w1)).
Proof.
  intros Hparse Hclean Hverbose Hsome Hlines.
  pose proof (clean_Ok_file_there _ _ _ _ _ _ Hclean) as Hfile.
  destruct (clean_Ok_world _ _ _ _ _ _ Hclean) as [Hout Herr].
  main_to_try Hparse Hfile. rewrite Hclean. unfold print. simpl.
  rewrite Hverbose, bool_decide_eq_false_2 by done. simpl.
  rewrite (print_removed_lines _ _ _ Hlines). simpl.
  by rewrite Hout, Herr, <- !(assoc_L (++)).
Qed.

Lemma main_failure args (w w1 : world text) ids e :
  parse_category_ids (category_ids args) = Some ids →
  is_Some (files w !! annotation_file args) →
  clean (annotation_file args) ids (arg_output_file args) w = (Err e, w1) →
  run args w = (Err (SystemExit 1), complained w1 ("Error: " +:+ str_exn e)).
Proof.
  intros Hparse Hfile Hclean.
  destruct (clean_Err_world _ _ _ _ _ _ Hclean) as (He & _).
  main_to_try Hparse Hfile. rewrite Hclean. by destruct e.
Qed.

(** X10: with ids that parse, when the cleaning succeeds and either
    [--verbose] is not given or no category was removed, [main] prints
    the four lines of the summary on standard output, nothing on
    standard error, and ends normally (exit status 0); the files are as
    the cleaning left them. *)
Theorem main_success args (w w1 : world text) ids st :
  parse_category_ids (category_ids args) = Some ids →
  clean (annotation_file args) ids (arg_output_file args) w = (Ok st, w1) →
  verbose args = false ∨ categories_removed st = [] →
  run args w
  = (Ok (), World (files w1) (stdout w ++ summary st)%list (stderr w)
              (trace w1)) ∧
  exit_status (run args w).1 = 0.
Proof.
  intros Hparse Hclean Hquiet.
  rewrite (main_quiet args w w1 ids st Hparse Hclean Hquiet).
  by split.
Qed.

(** X11: with [--verbose], when the cleaning succeeds, categories were
    removed and each of them has a line (an [id] and a [name]), [main]
    prints the summary, the heading and one line per removed category,
    in the order of the file, and ends normally. *)
Theorem main_verbose_listing args (w w1 : world text) ids st lines :
  parse_category_ids (category_ids args) = Some ids →
  clean (annotation_file args) ids (arg_output_file args) w = (Ok st, w1) →
  verbose args = true →
  categories_removed st ≠ [] →
  Forall2 (λ c l, line_of c = Ok l) (categories_removed st) lines →
  run args w
  = (Ok (), World (files w1)
              (stdout w ++ summary st ++ removed_heading :: lines)%list
              (stderr w) (trace w1)) ∧
  exit_status (run args w).1 = 0.
Proof.
  intros Hparse Hclean Hverbose Hsome Hlines.
  rewrite (main_listing args w w1 ids st lines Hparse Hclean Hverbose
             Hsome Hlines).
  by split.
Qed.

(** With [--verbose], when the line of a removed category cannot be
    made, the listing stops there and the exception is reported. *)
Lemma main_verbose_stops args (w w1 : world text) ids st
    good lines bad rest e :
  parse_category_ids (category_ids args) = Some ids →
  clean (annotation_file args) ids (arg_output_file args) w = (Ok st, w1) →
  verbose args = true →
  categories_removed st = (good ++ bad :: rest)%list →
  Forall2 (λ c l, line_of c = Ok l) good lines →
  line_of bad = Err e →
  run args w
  = (Err (SystemExit 1),
     World (files w1)
       (stdout w ++ summary st ++ removed_heading :: lines)%list
       (stderr w ++ ["Error: " +:+ str_exn e])%list (trace w1)).
Proof.
  intros Hparse Hclean Hverbose Hremoved Hlines Hbad.
  pose proof (clean_Ok_file_there _ _ _ _ _ _ Hclean) as Hfile.
  destruct (clean_Ok_world _ _ _ _ _ _ Hclean) as [Hout Herr].
  pose proof (category_line_ordinary _ _ _ Hbad) as He.
  main_to_try Hparse Hfile. rewrite Hclean. unfold print. simpl.
  rewrite Hverbose, bool_decide_eq_false_2
    by (rewrite Hremoved; by destruct good).
  simpl. rewrite Hremoved.
  rewrite (print_removed_stops _ _ _ _ _ _ Hlines Hbad). simpl.
  rewrite Hout, Herr, <- !(assoc_L (++)).
  by destruct e.
Qed.

(** X12: with [--verbose], when the cleaning succeeds but a removed
    category has an [id] and no [name], [main] prints the summary, the
    heading and the lines of the removed categories before that one,
    then the message [Error: 'name'] on standard error, and exits with
    status 1, although the output file has been written (the files are
    those the successful cleaning left). *)
Theorem main_verbose_missing_name args (w w1 : world text) ids st
    good lines fields rest :
  parse_category_ids (category_ids args) = Some ids →
  clean (annotation_file args) ids (arg_output_file args) w = (Ok st, w1) →
  verbose args = true →
  categories_removed st = (good ++ JObj fields :: rest)%list →
  Forall2 (λ c l, line_of c = Ok l) good lines →
  is_Some (Dict.get "id" fields) → Dict.get "name" fields = None →
  run args w
  = (Err (SystemExit 1),
     World (files w1)
       (stdout w ++ summary st ++ removed_heading :: lines)%list
       (stderr w ++ ["Error: 'name'"])%list (trace w1)) ∧
  exit_status (run args w).1 = 1.
Proof.
  intros Hparse Hclean Hverbose Hremoved Hlines [id Hid] Hname.
  assert (line_of (JObj fields) = Err (KeyError "name")) as Hbad.
  { unfold category_line. simpl. by rewrite Hid, Hname. }
  pose proof (main_verbose_stops args w w1 ids st good lines (JObj fields)
                rest _ Hparse Hclean Hverbose Hremoved Hlines Hbad) as Hrun.
  by rewrite Hrun.
Qed.

(** X13: with ids that parse and an annotation file that is there,
    when the cleaning raises [e], [main] prints [Error: ] followed by
    the text of [e] on standard error, as the only thing printed, and
    exits with status 1. *)
Theorem main_reports_failure args (w w1 : world text) ids e :
  parse_category_ids (category_ids args) = Some ids →
  is_Some (files w !! annotation_file args) →
  clean (annotation_file args) ids (arg_output_file args) w = (Err e, w1) →
  run args w = (Err (SystemExit 1), complained w1 ("Error: " +:+ str_exn e)) ∧
  exit_status (run args w).1 = 1 ∧
  stdout w1 = stdout w ∧ stderr w1 = stderr w.
Proof.
  intros Hparse Hfile Hclean.
  destruct (clean_Err_world _ _ _ _ _ _ Hclean) as (He & ? & ? & ?).
  rewrite (main_failure args w w1 ids e Hparse Hfile Hclean).
  by repeat split.
Qed.

End main_outcomes.

(** X15: the list of ids that [main] parses is never empty: the
    argument does not parse, or it yields a first id and as many ids as
    there are pieces between the commas. *)
Theorem parse_category_ids_shape s :
  parse_category_ids s = None ∨
  ∃ id ids,
    parse_category_ids s = Some (id :: ids) ∧
    length (id :: ids) = length (split_on ","%char s).
Proof.
  destruct (parse_category_ids s) as [[|id ids]|] eqn:Hparse; [|right|by left].
  - by apply parse_category_ids_not_nil in Hparse.
  - exists id, ids. split; [done|]. symmetry. by eapply length_mapM.
Qed.

(** ** Ids on both sides of a comma *)

Lemma split_on_app sep a b :
  split_on sep (a +:+ String sep b) = (split_on sep a ++ split_on sep b)%list.
Proof.
  induction a as [|c a IH]; simpl.
  - by rewrite decide_True.
  - destruct (decide (c = sep)); [by rewrite IH|].
    rewrite IH. pose proof (split_on_not_nil sep a).
    by destruct (split_on sep a).
Qed.

Lemma mapM_app_option {A B} (f : A → option B) l1 l2 :
  mapM f (l1 ++ l2)
  = k1 ← mapM f l1; k2 ← mapM f l2; Some (k1 ++ k2)%list.
Proof.
  induction l1 as [|x l1 IH]; simpl.
  - by destruct (mapM f l2).
  - destruct (f x); simpl; [|done]. rewrite IH.
    destruct (mapM f l1); simpl; [|done]. by destruct (mapM f l2).
Qed.

(** X16: an argument made of two parts joined by a comma parses when
    both parts parse, to the ids of the first followed by the ids of the
    second. *)
Theorem parse_category_ids_comma a b :
  parse_category_ids (a +:+ "," +:+ b)
  = ids_a ← parse_category_ids a; ids_b ← parse_category_ids b;
    Some (ids_a ++ ids_b)%list.
Proof.
  unfold parse_category_ids.
  change ("," +:+ b) with (String ","%char b).
  by rewrite split_on_app, mapM_app_option.
Qed.

(** ** Further instances on the sample documents *)

Lemma clean_write_failure_witness :
  Sample.clean "in.json" [0; 39] (Some "/locked.json") Sample.world_A
  = (Err (IOError "Failed to write output file: [Errno 13] Permission denied: '/locked.json'"),
     log (JsonLoad "in.json") Sample.world_A).
Proof.
  exact (clean_write_failure Sample.json_load Sample.json_dump
           Sample.write_error Sample.world_A "in.json" [0; 39]
           (Some "/locked.json") _ _ _ _ _
           world_A_input eq_refl document_A eq_refl).
Defined.

Lemma clean_bad :
  Sample.clean "bad.json" [1] None Sample.world_A
  = (Err missing_annotations, log (JsonLoad "bad.json") Sample.world_A).
Proof. by vm_compute. Qed.

Lemma clean_A :
  Sample.clean "in.json" [0; 39] (Some "out.json") Sample.world_A
  = (Ok Sample.stats_A, Sample.cleaned_A).
Proof. by vm_compute. Qed.

Lemma clean_success_effects_witness :
  output_file Sample.stats_A = "out.json" ∧
  stdout Sample.cleaned_A = stdout Sample.world_A ∧
  stderr Sample.cleaned_A = stderr Sample.world_A ∧
  ∃ data ind,
    trace Sample.cleaned_A
    = (trace Sample.world_A
       ++ [JsonLoad "in.json"; JsonDump "out.json" data ind])%list ∧
    files Sample.cleaned_A !! "out.json" = Some (Sample.json_dump data ind).
Proof.
  exact (clean_success_effects Sample.json_load Sample.json_dump
           Sample.write_error Sample.world_A "in.json" [0; 39]
           (Some "out.json") _ _ clean_A).
Defined.

Lemma world_N_no_id :
  files Sample.world_N !! "no_id.json"
  = Some (Sample.Rendered (JObj Sample.dict_no_id) None).
Proof. by vm_compute. Qed.

Lemma testable_sample_category id name : testable "id" (Sample.category id name).
Proof. by eexists. Qed.

Lemma testable_sample_annotation id category_id :
  testable "category_id" (Sample.annotation id category_id).
Proof. by eexists. Qed.

Lemma clean_category_without_id_witness :
  Sample.clean "no_id.json" [0] None Sample.world_N
  = (Err (KeyError "id"), log (JsonLoad "no_id.json") Sample.world_N).
Proof.
  exact (clean_category_without_id Sample.json_load Sample.json_dump
           Sample.write_error Sample.world_N "no_id.json" [0] None _
           Sample.dict_no_id [Sample.category 0 "a"] [("name", JStr "b")] []
           (JArr Sample.annotations_A) 4%nat
           world_N_no_id eq_refl eq_refl eq_refl eq_refl
           (Forall_cons_2 _ _ _ (testable_sample_category 0 "a")
              (Forall_nil_2 _))
           eq_refl).
Defined.

Lemma world_N_broken :
  files Sample.world_N !! "broken.json"
  = Some (Sample.Rendered (JObj Sample.dict_broken) None).
Proof. by vm_compute. Qed.

Lemma testable_categories_A : Forall (testable "id") Sample.categories_A.
Proof. repeat constructor; by eexists. Qed.

Lemma clean_annotation_without_category_id_witness :
  Sample.clean "broken.json" [0] None Sample.world_N
  = (Err (KeyError "category_id"),
     log (JsonLoad "broken.json") Sample.world_N).
Proof.
  exact (clean_annotation_without_category_id Sample.json_load
           Sample.json_dump Sample.write_error Sample.world_N "broken.json"
           [0] None _ Sample.dict_broken Sample.categories_A
           [Sample.annotation 10 0] [("id", JInt 11)] []
           world_N_broken eq_refl eq_refl eq_refl testable_categories_A
           (Forall_cons_2 _ _ _ (testable_sample_annotation 10 0)
              (Forall_nil_2 _))
           eq_refl).
Defined.

Lemma world_N_list :
  files Sample.world_N !! "list.json"
  = Some (Sample.Rendered (JArr [JStr "categories"]) None).
Proof. by vm_compute. Qed.

Lemma list_is_no_dictionary d : JArr [JStr "categories"] ≠ JObj d.
Proof. done. Qed.

Lemma clean_rejects_non_dictionary_witness :
  ∃ e,
    Sample.clean "list.json" [0] None Sample.world_N
    = (Err e, log (JsonLoad "list.json") Sample.world_N) ∧ ordinary e.
Proof.
  exact (clean_rejects_non_dictionary Sample.json_load Sample.json_dump
           Sample.write_error Sample.world_N "list.json" [0] None _ _
           world_N_list eq_refl list_is_no_dictionary).
Defined.

Lemma two_runs_compose_witness :
  ∃ st1 w1 st2 w2 st12 w12 data ind2 ind12,
    Sample.clean "in.json" [0] (Some "out.json") Sample.world_A
    = (Ok st1, w1) ∧
    Sample.clean (output_file st1) [39] None w1 = (Ok st2, w2) ∧
    Sample.clean "in.json" ([0] ++ [39])%list (Some "out.json") Sample.world_A
    = (Ok st12, w12) ∧
    dumped Sample.json_dump w2 (output_file st2) data ind2 ∧
    dumped Sample.json_dump w12 (output_file st12) data ind12 ∧
    final_categories_count st2 = final_categories_count st12 ∧
    final_annotations_count st2 = final_annotations_count st12.
Proof.
  exact (two_runs_compose Sample.json_load Sample.json_dump
           Sample.write_error Sample.world_A "in.json" (Some "out.json")
           _ _ _ _ [0] [39] None
           world_A_input eq_refl document_A eq_refl (λ _, eq_refl) eq_refl).
Defined.

Lemma clean_B :
  Sample.clean "in.json" [5] None Sample.world_A
  = (Ok Sample.stats_B, Sample.cleaned_B).
Proof. by vm_compute. Qed.

Lemma main_success_witness :
  Sample.run (Namespace "in.json" "5" None true) Sample.world_A
  = (Ok (), World (files Sample.cleaned_B)
              (stdout Sample.world_A ++ summary Sample.stats_B)%list
              (stderr Sample.world_A) (trace Sample.cleaned_B)) ∧
  exit_status (Sample.run (Namespace "in.json" "5" None true) Sample.world_A).1
  = 0.
Proof.
  exact (main_success Sample.json_load Sample.json_dump Sample.write_error
           Sample.py_repr (Namespace "in.json" "5" None true)
           Sample.world_A Sample.cleaned_B [5] Sample.stats_B
           eq_refl clean_B (or_intror eq_refl)).
Defined.

Lemma lines_A :
  Forall2 (λ c l, category_line Sample.py_repr c = Ok l)
    (categories_removed Sample.stats_A)
    ["  - ID 0: a (supercategory: none)";
     "  - ID 39: c (supercategory: none)"].
Proof. repeat constructor. Qed.

Lemma removed_A_not_nil : categories_removed Sample.stats_A ≠ [].
Proof. done. Qed.

Lemma main_verbose_listing_witness :
  Sample.run (Namespace "in.json" "0,39" (Some "out.json") true)
    Sample.world_A
  = (Ok (), World (files Sample.cleaned_A)
              (stdout Sample.world_A ++ summary Sample.stats_A
               ++ removed_heading
                  :: ["  - ID 0: a (supercategory: none)";
                      "  - ID 39: c (supercategory: none)"])%list
              (stderr Sample.world_A) (trace Sample.cleaned_A)) ∧
  exit_status
    (Sample.run (Namespace "in.json" "0,39" (Some "out.json") true)
       Sample.world_A).1
  = 0.
Proof.
  exact (main_verbose_listing Sample.json_load Sample.json_dump
           Sample.write_error Sample.py_repr
           (Namespace "in.json" "0,39" (Some "out.json") true)
           Sample.world_A Sample.cleaned_A [0; 39] Sample.stats_A _
           eq_refl clean_A eq_refl removed_A_not_nil lines_A).
Defined.

Lemma clean_N :
  Sample.clean "n.json" [4] None Sample.world_N
  = (Ok Sample.stats_N, Sample.cleaned_N).
Proof. by vm_compute. Qed.

Lemma main_verbose_missing_name_witness :
  Sample.run (Namespace "n.json" "4" None true) Sample.world_N
  = (Err (SystemExit 1),
     World (files Sample.cleaned_N)
       (stdout Sample.world_N ++ summary Sample.stats_N
        ++ removed_heading :: [])%list
       (stderr Sample.world_N ++ ["Error: 'name'"])%list
       (trace Sample.cleaned_N)) ∧
  exit_status (Sample.run (Namespace "n.json" "4" None true) Sample.world_N).1
  = 1.
Proof.
  exact (main_verbose_missing_name Sample.json_load Sample.json_dump
           Sample.write_error Sample.py_repr
           (Namespace "n.json" "4" None true)
           Sample.world_N Sample.cleaned_N [4] Sample.stats_N
           [] [] [("id", JInt 4); ("supercategory", JStr "plant")] []
           eq_refl clean_N eq_refl eq_refl (List.Forall2_nil _)
           (ex_intro _ (JInt 4) eq_refl) eq_refl).
Defined.

Lemma world_A_bad_there : is_Some (files Sample.world_A !! "bad.json").
Proof. rewrite world_A_malformed. by eexists. Qed.

Lemma main_reports_failure_witness :
  Sample.run (Namespace "bad.json" "1" None false) Sample.world_A
  = (Err (SystemExit 1),
     complained (log (JsonLoad "bad.json") Sample.world_A)
       "Error: 'annotations' field not found in annotation file") ∧
  exit_status
    (Sample.run (Namespace "bad.json" "1" None false) Sample.world_A).1 = 1 ∧
  stdout (log (JsonLoad "bad.json") Sample.world_A) = stdout Sample.world_A ∧
  stderr (log (JsonLoad "bad.json") Sample.world_A) = stderr Sample.world_A.
Proof.
  exact (main_reports_failure Sample.json_load Sample.json_dump
           Sample.write_error Sample.py_repr
           (Namespace "bad.json" "1" None false)
           Sample.world_A _ [1] _ eq_refl world_A_bad_there clean_bad).
Defined.
